(** * The supervisor of the LinkedIn content pipeline (agents/supervisor.py)

    A shallow embedding of [SupervisorAgent]: the four stage nodes, the
    finalizing node, the LangGraph chain that links them, [run_workflow],
    and the two reporting methods [get_workflow_status] and
    [get_results_summary] together with the agents' summarizers they call.

    Modelling conventions.
    - A Python [str] is a [string] whose characters are code points below
      256; [lower] and [strip] follow Python on that range.
    - A Python [dict] with string keys is an association list in insertion
      order, without duplicate keys.
    - The workflow state is the TypedDict [WorkflowState]; a key that is
      absent from the dictionary is a field holding [None].
    - Statements run in a monad over the store: the state dictionary, the
      log of the calls made to the agents, and the history of the values
      the state dictionary has taken.  An exception leaves the store as it
      was when the exception was raised, as in Python.
    - The four agents call remote services; the supervisor is embedded over
      an arbitrary [SupervisorAgent], whose stage methods either return a
      dictionary or raise.  [logger] calls are not modelled. *)

From Stdlib Require Import String Ascii List ZArith NArith Bool Lia.
From Stdlib Require Import DecimalString.
Import ListNotations.
Local Open Scope string_scope.
Local Open Scope list_scope.

(** ** Strings *)

Module PyStr.

(** [c.lower()] on a code point below 256: A-Z, and the Latin-1 capitals
    0xC0-0xDE except the multiplication sign 0xD7. *)
Definition lower_char (c : ascii) : ascii :=
  let n := N_of_ascii c in
  if ((65 <=? n) && (n <=? 90))%N then ascii_of_N (n + 32)
  else if ((192 <=? n) && (n <=? 222) && negb (n =? 215))%N then ascii_of_N (n + 32)
  else c.

Fixpoint lower (s : string) : string :=
  match s with
  | EmptyString => EmptyString
  | String c r => String (lower_char c) (lower r)
  end.

(** [c.isspace()] on a code point below 256. *)
Definition is_space (c : ascii) : bool :=
  let n := N_of_ascii c in
  (((9 <=? n) && (n <=? 13)) || ((28 <=? n) && (n <=? 32))
   || (n =? 133) || (n =? 160))%N.

Fixpoint lstrip (s : string) : string :=
  match s with
  | EmptyString => EmptyString
  | String c r => if is_space c then lstrip r else s
  end.

Fixpoint rstrip (s : string) : string :=
  match s with
  | EmptyString => EmptyString
  | String c r =>
      match rstrip r with
      | EmptyString => if is_space c then EmptyString else String c EmptyString
      | r' => String c r'
      end
  end.

(** [s.strip()] *)
Definition strip (s : string) : string := rstrip (lstrip s).

(** [needle in hay] *)
Fixpoint contains (needle hay : string) : bool :=
  String.prefix needle hay ||
  match hay with
  | EmptyString => false
  | String _ r => contains needle r
  end.

(** [sep.join(parts)] *)
Fixpoint join (sep : string) (parts : list string) : string :=
  match parts with
  | [] => ""
  | [p] => p
  | p :: rest => p ++ sep ++ join sep rest
  end.

(** [str(n)] for an [int] *)
Definition of_Z (z : Z) : string := NilZero.string_of_int (Z.to_int z).

End PyStr.

(** ** More methods of [str], used by the agents *)

Module PyText.

Definition newline : ascii := "010"%char.

(** [s.startswith(p)] *)
Definition startswith (s p : string) : bool := String.prefix p s.

(** [s.split(sep)] for a separator of one character. *)
Fixpoint split (sep : ascii) (s : string) : list string :=
  match s with
  | EmptyString => [EmptyString]
  | String c r =>
      if Ascii.eqb c sep then EmptyString :: split sep r
      else match split sep r with
           | h :: t => String c h :: t
           | [] => [String c EmptyString]
           end
  end.

(** [s.split()]: the maximal runs of characters that are not spaces. *)
Fixpoint words (s : string) : list string :=
  match s with
  | EmptyString => []
  | String c r =>
      if PyStr.is_space c then words r
      else match r with
           | EmptyString => [String c EmptyString]
           | String c' _ =>
               if PyStr.is_space c' then String c EmptyString :: words r
               else match words r with
                    | h :: t => String c h :: t
                    | [] => [String c EmptyString]
                    end
           end
  end.

(** [s[:n]] *)
Fixpoint take (n : nat) (s : string) : string :=
  match n, s with
  | S n', String c r => String c (take n' r)
  | _, _ => EmptyString
  end.

Fixpoint newlines (n : nat) : string :=
  match n with
  | O => EmptyString
  | S n' => String newline (newlines n')
  end.

(** What a maximal run of [n] newlines becomes under
    [re.sub(r'\n{3,}', '\n\n', s)]. *)
Definition squeezed (n : nat) : string :=
  if Nat.leb 3 n then newlines 2 else newlines n.

(** [re.sub(r'\n{3,}', '\n\n', s)], with [pending] newlines already read. *)
Fixpoint squeeze_from (pending : nat) (s : string) : string :=
  match s with
  | EmptyString => squeezed pending
  | String c r =>
      if Ascii.eqb c newline then squeeze_from (S pending) r
      else squeezed pending ++ String c (squeeze_from 0 r)
  end.

Definition squeeze_newlines (s : string) : string := squeeze_from 0 s.

End PyText.

(** ** Python values and dictionaries *)

#[local] Set Warnings "-register-all".

Inductive pyval : Type :=
| PNone
| PBool (b : bool)
| PInt (z : Z)
| PStr (s : string)
| PList (l : list pyval)
| PDict (d : list (string * pyval)).

Definition dict : Type := list (string * pyval).

Module Dict.

Section Generic.
Context {V : Type}.

(** [d.get(k)] *)
Fixpoint get (k : string) (d : list (string * V)) : option V :=
  match d with
  | [] => None
  | (k', v) :: r => if String.eqb k k' then Some v else get k r
  end.

(** [k in d] *)
Definition has (k : string) (d : list (string * V)) : bool :=
  match get k d with Some _ => true | None => false end.

(** [d[k] = v]: an existing key keeps its place, a new one goes last. *)
Fixpoint set (k : string) (v : V) (d : list (string * V)) : list (string * V) :=
  match d with
  | [] => [(k, v)]
  | (k', v') :: r => if String.eqb k k' then (k, v) :: r else (k', v') :: set k v r
  end.

Definition keys (d : list (string * V)) : list string := map fst d.

End Generic.

End Dict.

(** Truth value of an object, as [if x:] tests it. *)
Definition truthy (v : pyval) : bool :=
  match v with
  | PNone => false
  | PBool b => b
  | PInt z => negb (z =? 0)%Z
  | PStr s => negb (String.eqb s "")
  | PList l => match l with [] => false | _ => true end
  | PDict d => match d with [] => false | _ => true end
  end.

(** [v != "unknown"] and the like: only a [str] equals a [str]. *)
Definition eq_str (v : pyval) (s : string) : bool :=
  match v with PStr s' => String.eqb s' s | _ => false end.

Definition type_name (v : pyval) : string :=
  match v with
  | PNone => "NoneType"
  | PBool _ => "bool"
  | PInt _ => "int"
  | PStr _ => "str"
  | PList _ => "list"
  | PDict _ => "dict"
  end.

(** ** Exceptions and results *)

(** The subclasses of [Exception] that the embedded code can meet;
    [Exception] stands for any other one raised by an agent.  What
    [except Exception] does not catch (KeyboardInterrupt, SystemExit) is
    not modelled. *)
Inductive exn : Type :=
| KeyError (key : string)
| ValueError (msg : string)
| TypeError (msg : string)
| AttributeError (msg : string)
| GraphRecursionError (msg : string)
| Exception (msg : string).

Inductive res (A : Type) : Type :=
| Ok (a : A)
| Raise (e : exn).
Arguments Ok {A} a.
Arguments Raise {A} e.

(** What a stage method of an agent does when called. *)
Inductive outcome : Type :=
| Returned (d : dict)
| Raised (e : exn).

(** ** The workflow state *)

(** [class WorkflowState(TypedDict)]; [None] in a field: the key is absent. *)
Record WorkflowState : Type := mkState {
  tone_sample : option string;
  topic : option string;
  language : option string;
  tone_analysis : option dict;
  research_data : option dict;
  content_result : option dict;
  image_result : option dict;
  current_step : option string;
  completed_steps : option (list string);
  errors : option (list string);
  status : option string
}.

(** The dictionary [{}]. *)
Definition no_keys : WorkflowState :=
  mkState None None None None None None None None None None None.

Definition set_tone_analysis (v : dict) (s : WorkflowState) : WorkflowState :=
  mkState (tone_sample s) (topic s) (language s) (Some v) (research_data s)
          (content_result s) (image_result s) (current_step s)
          (completed_steps s) (errors s) (status s).

Definition set_research_data (v : dict) (s : WorkflowState) : WorkflowState :=
  mkState (tone_sample s) (topic s) (language s) (tone_analysis s) (Some v)
          (content_result s) (image_result s) (current_step s)
          (completed_steps s) (errors s) (status s).

Definition set_content_result (v : dict) (s : WorkflowState) : WorkflowState :=
  mkState (tone_sample s) (topic s) (language s) (tone_analysis s)
          (research_data s) (Some v) (image_result s) (current_step s)
          (completed_steps s) (errors s) (status s).

Definition set_image_result (v : dict) (s : WorkflowState) : WorkflowState :=
  mkState (tone_sample s) (topic s) (language s) (tone_analysis s)
          (research_data s) (content_result s) (Some v) (current_step s)
          (completed_steps s) (errors s) (status s).

Definition set_current_step (v : string) (s : WorkflowState) : WorkflowState :=
  mkState (tone_sample s) (topic s) (language s) (tone_analysis s)
          (research_data s) (content_result s) (image_result s) (Some v)
          (completed_steps s) (errors s) (status s).

Definition set_completed_steps (v : list string) (s : WorkflowState) : WorkflowState :=
  mkState (tone_sample s) (topic s) (language s) (tone_analysis s)
          (research_data s) (content_result s) (image_result s)
          (current_step s) (Some v) (errors s) (status s).

Definition set_errors (v : list string) (s : WorkflowState) : WorkflowState :=
  mkState (tone_sample s) (topic s) (language s) (tone_analysis s)
          (research_data s) (content_result s) (image_result s)
          (current_step s) (completed_steps s) (Some v) (status s).

Definition set_status (v : string) (s : WorkflowState) : WorkflowState :=
  mkState (tone_sample s) (topic s) (language s) (tone_analysis s)
          (research_data s) (content_result s) (image_result s)
          (current_step s) (completed_steps s) (errors s) (Some v).

(** [state.get(key, default)] *)
Definition get_or {A : Type} (field : option A) (default : A) : A :=
  match field with Some v => v | None => default end.

(** The two lists of a state, read as [state.get(key, [])]. *)
Definition completed_of (s : WorkflowState) : list string := get_or (completed_steps s) [].
Definition errors_of (s : WorkflowState) : list string := get_or (errors s) [].

(** The bounds on the two lists: at most four entries in all, and no stage
    name twice in [completed_steps]. *)
Definition within_bounds (s : WorkflowState) : Prop :=
  length (completed_of s) + length (errors_of s) <= 4 /\ NoDup (completed_of s).

(** ** The agents, as the supervisor sees them *)

Module ToneAnalysisAgent.
Record t : Type := { analyze_tone : string -> outcome }.
End ToneAnalysisAgent.

Module ResearchAgent.
Record t : Type := { research_topic : string -> outcome }.
End ResearchAgent.

Module ContentCreationAgent.
Record t : Type := { create_content : dict -> dict -> string -> outcome }.
End ContentCreationAgent.

Module ImageGenerationAgent.
Record t : Type := { generate_image : pyval -> string -> outcome }.
End ImageGenerationAgent.

(** The agents held by a [SupervisorAgent] ([__init__]). *)
Record SupervisorAgent : Type := {
  tone_agent : ToneAnalysisAgent.t;
  research_agent : ResearchAgent.t;
  content_agent : ContentCreationAgent.t;
  image_agent : ImageGenerationAgent.t
}.

(** One call from the supervisor to an agent: arguments and outcome. *)
Inductive call : Type :=
| ToneCall (sample : string) (r : outcome)
| ResearchCall (subject : string) (r : outcome)
| ContentCall (tone research : dict) (subject : string) (r : outcome)
| ImageCall (post_content : pyval) (subject : string) (r : outcome).

(** The four stages, in the order of the graph's edges. *)
Inductive stage : Type := Tone | Research | Content | Image.

Definition stage_of (c : call) : stage :=
  match c with
  | ToneCall _ _ => Tone
  | ResearchCall _ _ => Research
  | ContentCall _ _ _ _ => Content
  | ImageCall _ _ _ => Image
  end.

Definition outcome_of (c : call) : outcome :=
  match c with
  | ToneCall _ r | ResearchCall _ r | ContentCall _ _ _ r | ImageCall _ _ r => r
  end.

(** ** The store and the monad of statements *)

Record store : Type := mkStore {
  state : WorkflowState;
  calls : list call;
  history : list WorkflowState
}.

Definition M (A : Type) : Type := store -> res A * store.

Definition ret {A : Type} (a : A) : M A := fun st => (Ok a, st).

Definition bind {A B : Type} (m : M A) (k : A -> M B) : M B :=
  fun st =>
    match m st with
    | (Ok a, st') => k a st'
    | (Raise e, st') => (Raise e, st')
    end.

Definition raise {A : Type} (e : exn) : M A := fun st => (Raise e, st).

(** [try: body / except Exception as e: handler(e)] *)
Definition try_except {A : Type} (body : M A) (handler : exn -> M A) : M A :=
  fun st =>
    match body st with
    | (Ok a, st') => (Ok a, st')
    | (Raise e, st') => handler e st'
    end.

Definition get_state : M WorkflowState := fun st => (Ok (state st), st).

(** Every write to the state dictionary also goes to [history]. *)
Definition put_state (s : WorkflowState) : M unit :=
  fun st => (Ok tt, mkStore s (calls st) (history st ++ [s])).

Definition modify (f : WorkflowState -> WorkflowState) : M unit :=
  fun st => put_state (f (state st)) st.

Definition record_call (c : call) : M unit :=
  fun st => (Ok tt, mkStore (state st) (calls st ++ [c]) (history st)).

Definition lift_outcome (r : outcome) : M dict :=
  match r with
  | Returned d => ret d
  | Raised e => raise e
  end.

(** A computation that leaves the store as it found it. *)
Definition readonly {A : Type} (m : M A) : Prop := forall st, snd (m st) = st.

Declare Scope py_scope.
Delimit Scope py_scope with py.
Notation "x <- m ;; k" := (bind m (fun x => k))
  (at level 100, m at next level, right associativity) : py_scope.
Notation "m ;; k" := (bind m (fun _ => k))
  (at level 100, right associativity) : py_scope.
Local Open Scope py_scope.

(** [state[key]] for a key that may be absent. *)
Definition getitem {A : Type} (key : string) (field : WorkflowState -> option A) : M A :=
  s <- get_state ;;
  match field s with
  | Some v => ret v
  | None => raise (KeyError key)
  end.

(** [if key not in state: state[key] = default] *)
Definition setdefault {A : Type} (field : WorkflowState -> option A)
    (set : A -> WorkflowState -> WorkflowState) (default : A) : M unit :=
  s <- get_state ;;
  match field s with
  | None => modify (set default)
  | Some _ => ret tt
  end.

Definition setdefault_errors : M unit := setdefault errors set_errors [].

Definition setdefault_completed_steps : M unit :=
  setdefault completed_steps set_completed_steps [].

Definition setdefault_current_step : M unit :=
  setdefault current_step set_current_step "".

Definition setdefault_status : M unit := setdefault status set_status "".

(** [state["completed_steps"].append(name)] *)
Definition append_completed_step (name : string) : M unit :=
  l <- getitem "completed_steps" completed_steps ;;
  modify (set_completed_steps (l ++ [name])).

(** [state["errors"].append(msg)] *)
Definition append_error (msg : string) : M unit :=
  l <- getitem "errors" errors ;;
  modify (set_errors (l ++ [msg])).

(** [d[key]] on a result dictionary. *)
Definition dict_getitem (key : string) (d : dict) : M pyval :=
  match Dict.get key d with
  | Some v => ret v
  | None => raise (KeyError key)
  end.

(** ** LangGraph: a graph of nodes over the shared state *)

Module StateGraph.

Record t : Type := {
  nodes : list (string * M unit);
  edges : list (string * string);
  entry_point : option string
}.

Definition END : string := "__end__".

Definition empty : t := {| nodes := []; edges := []; entry_point := None |}.

Definition add_node (name : string) (f : M unit) (g : t) : t :=
  {| nodes := Dict.set name f (nodes g); edges := edges g;
     entry_point := entry_point g |}.

Definition add_edge (src dst : string) (g : t) : t :=
  {| nodes := nodes g; edges := edges g ++ [(src, dst)];
     entry_point := entry_point g |}.

Definition set_entry_point (name : string) (g : t) : t :=
  {| nodes := nodes g; edges := edges g; entry_point := Some name |}.

(** The default [recursion_limit] of a compiled graph. *)
Definition recursion_limit : nat := 25.

(** Runs the node [cur], then the node its edge leads to, until [END].
    Every node here mutates the shared state and returns it, so writing
    the returned dictionary back into the state changes nothing. *)
Fixpoint run (g : t) (fuel : nat) (cur : string) : M unit :=
  if String.eqb cur END then ret tt
  else
    match fuel with
    | O => raise (GraphRecursionError "Recursion limit reached")
    | S fuel' =>
        match Dict.get cur (nodes g) with
        | None => raise (KeyError cur)
        | Some f =>
            f ;;
            match Dict.get cur (edges g) with
            | Some next => run g fuel' next
            | None => ret tt
            end
        end
    end.

(** [compiled.invoke(input)] *)
Definition invoke (g : t) (input : WorkflowState) : M WorkflowState :=
  put_state input ;;
  match entry_point g with
  | None => raise (ValueError "Graph must have an entrypoint")
  | Some start => run g recursion_limit start
  end ;;
  get_state.

End StateGraph.

(** ** Agents with scripted outcomes, for the examples *)

Module Examples.

(** [repr] of a value; exact when every string in it is made of printable
    ASCII characters other than the quote and the backslash. *)
Fixpoint ascii_repr (v : pyval) : string :=
  match v with
  | PNone => "None"
  | PBool true => "True"
  | PBool false => "False"
  | PInt z => PyStr.of_Z z
  | PStr s => "'" ++ s ++ "'"
  | PList l => "[" ++ PyStr.join ", " (map ascii_repr l) ++ "]"
  | PDict d =>
      "{" ++ PyStr.join ", "
               (map (fun kv : string * pyval =>
                       let (k, x) := kv in "'" ++ k ++ "': " ++ ascii_repr x) d)
          ++ "}"
  end%string.

(** A supervisor whose four agents answer with fixed outcomes. *)
Definition scripted (tone research content image : outcome) : SupervisorAgent :=
  {| tone_agent := {| ToneAnalysisAgent.analyze_tone := fun _ => tone |};
     research_agent := {| ResearchAgent.research_topic := fun _ => research |};
     content_agent :=
       {| ContentCreationAgent.create_content := fun _ _ _ => content |};
     image_agent := {| ImageGenerationAgent.generate_image := fun _ _ => image |} |}.

(** The dictionary an agent returns from its [except] branch; the third
    key is "tone_sample" for the tone agent and "topic" for the others. *)
Definition failure (msg key value : string) : dict :=
  [("error", PStr msg); ("status", PStr "error"); (key, PStr value)].

Definition tone_ok : dict :=
  [("raw_analysis", PStr "Formal and calm.");
   ("tone_sample", PStr "We ship small, we ship often.");
   ("status", PStr "completed");
   ("characteristics",
    PDict [("formality", PStr "formal"); ("energy", PStr "moderate");
           ("expertise", PStr "unknown"); ("personality", PStr "unknown")])].

Definition research_ok : dict :=
  [("topic", PStr "AI in marketing");
   ("analysis", PStr "1. Adoption grows #AI");
   ("status", PStr "completed");
   ("insights", PList [PStr "1. Adoption grows #AI"]);
   ("hashtags", PList [PStr "#AI"])].

Definition content_ok : dict :=
  [("post_content", PStr "AI changes marketing. What do you think? #AI");
   ("topic", PStr "AI in marketing");
   ("status", PStr "completed");
   ("word_count", PInt 8);
   ("hashtags", PList [PStr "#AI"]);
   ("call_to_action", PStr "What do you think?")].

Definition image_ok : dict :=
  [("image_url", PStr "https://images.example/post.png");
   ("topic", PStr "AI in marketing");
   ("status", PStr "completed");
   ("dimensions", PStr "1024x1024");
   ("format", PStr "PNG")].

(** Every stage succeeds. *)
Definition all_ok : SupervisorAgent :=
  scripted (Returned tone_ok) (Returned research_ok) (Returned content_ok)
           (Returned image_ok).

(** Every stage reports the same failure. *)
Definition all_down : SupervisorAgent :=
  scripted
    (Returned (failure "API down" "tone_sample" "We ship small, we ship often."))
    (Returned (failure "API down" "topic" "AI in marketing"))
    (Returned (failure "API down" "topic" "AI in marketing"))
    (Returned (failure "API down" "topic" "AI in marketing")).

(** The tone stage fails, with a message that names another stage. *)
Definition tone_down : SupervisorAgent :=
  scripted
    (Returned (failure "research quota exceeded" "tone_sample"
                       "We ship small, we ship often."))
    (Returned research_ok) (Returned content_ok) (Returned image_ok).

(** The content agent breaks its contract and raises. *)
Definition content_raises : SupervisorAgent :=
  scripted (Returned tone_ok) (Returned research_ok)
           (Raised (Exception "connection reset")) (Returned image_ok).

Definition sample : string := "  We ship small, we ship often.  ".
Definition subject : string := "AI in marketing".

End Examples.

(** ** The supervisor *)

Section Supervisor.

(** [repr(v)], Python's builtin, used where an f-string formats a list or
    a dictionary and where a [KeyError] is turned into text. *)
Variable repr : pyval -> string.

(** [str(v)], as an f-string applies it. *)
Definition py_str (v : pyval) : string :=
  match v with
  | PNone => "None"
  | PBool true => "True"
  | PBool false => "False"
  | PInt z => PyStr.of_Z z
  | PStr s => s
  | PList _ | PDict _ => repr v
  end.

(** [str(e)] *)
Definition exn_str (e : exn) : string :=
  match e with
  | KeyError key => repr (PStr key)
  | ValueError msg | TypeError msg | AttributeError msg
  | GraphRecursionError msg | Exception msg => msg
  end.

Variable self : SupervisorAgent.

(** [self.tone_agent.analyze_tone(sample)] and the three other stage calls:
    the call is logged with its outcome, then returns or raises. *)
Definition call_tone (sample : string) : M dict :=
  let r := ToneAnalysisAgent.analyze_tone (tone_agent self) sample in
  record_call (ToneCall sample r) ;; lift_outcome r.

Definition call_research (subject : string) : M dict :=
  let r := ResearchAgent.research_topic (research_agent self) subject in
  record_call (ResearchCall subject r) ;; lift_outcome r.

Definition call_content (tone research : dict) (subject : string) : M dict :=
  let r := ContentCreationAgent.create_content (content_agent self) tone research subject in
  record_call (ContentCall tone research subject r) ;; lift_outcome r.

Definition call_image (post_content : pyval) (subject : string) : M dict :=
  let r := ImageGenerationAgent.generate_image (image_agent self) post_content subject in
  record_call (ImageCall post_content subject r) ;; lift_outcome r.

(** [state["errors"].append(f"<prefix>{result['error']}")] *)
Definition append_error_of (prefix : string) (result : dict) : M unit :=
  l <- getitem "errors" errors ;;
  err <- dict_getitem "error" result ;;
  modify (set_errors (l ++ [(prefix ++ py_str err)%string])).

(** The node "analyze_tone". *)
Definition analyze_tone : M unit :=
  setdefault_errors ;;
  setdefault_completed_steps ;;
  setdefault_current_step ;;
  setdefault_status ;;
  modify (set_current_step "tone_analysis") ;;
  modify (set_status "working") ;;
  try_except
    (sample <- getitem "tone_sample" tone_sample ;;
     tone_result <- call_tone sample ;;
     modify (set_tone_analysis tone_result) ;;
     if negb (Dict.has "error" tone_result)
     then append_completed_step "tone_analysis"
     else append_error_of "Tone analysis error: " tone_result)
    (fun e => append_error ("Tone analysis failed: " ++ exn_str e)%string).

(** The node "research_topic". *)
Definition research_topic : M unit :=
  setdefault_errors ;;
  setdefault_completed_steps ;;
  modify (set_current_step "research") ;;
  modify (set_status "working") ;;
  try_except
    (subject <- getitem "topic" topic ;;
     research_result <- call_research subject ;;
     modify (set_research_data research_result) ;;
     if negb (Dict.has "error" research_result)
     then append_completed_step "research"
     else append_error_of "Research error: " research_result)
    (fun e => append_error ("Research failed: " ++ exn_str e)%string).

(** The node "create_content". *)
Definition create_content : M unit :=
  setdefault_errors ;;
  setdefault_completed_steps ;;
  modify (set_current_step "content_creation") ;;
  modify (set_status "working") ;;
  try_except
    (s <- get_state ;;
     subject <- getitem "topic" topic ;;
     result <- call_content (get_or (tone_analysis s) [])
                            (get_or (research_data s) []) subject ;;
     modify (set_content_result result) ;;
     if negb (Dict.has "error" result)
     then append_completed_step "content_creation"
     else append_error_of "Content creation error: " result)
    (fun e => append_error ("Content creation failed: " ++ exn_str e)%string).

(** The text handed to the image agent, from [state.get("content_result")]:
    [""] unless that is a non-empty dictionary with a ["post_content"] key. *)
Definition post_content_of (content : option dict) : pyval :=
  match content with
  | Some d =>
      if truthy (PDict d) && Dict.has "post_content" d
      then get_or (Dict.get "post_content" d) (PStr "")
      else PStr ""
  | None => PStr ""
  end.

(** The node "generate_image". *)
Definition generate_image : M unit :=
  setdefault_errors ;;
  setdefault_completed_steps ;;
  modify (set_current_step "image_generation") ;;
  modify (set_status "working") ;;
  try_except
    (s <- get_state ;;
     subject <- getitem "topic" topic ;;
     result <- call_image (post_content_of (content_result s)) subject ;;
     modify (set_image_result result) ;;
     if negb (Dict.has "error" result)
     then append_completed_step "image_generation"
     else append_error_of "Image generation error: " result)
    (fun e => append_error ("Image generation failed: " ++ exn_str e)%string).

(** The node "finalize". *)
Definition finalize_workflow : M unit :=
  setdefault_errors ;;
  setdefault_completed_steps ;;
  modify (set_current_step "completed") ;;
  s <- get_state ;;
  let error_count := length (get_or (errors s) []) in
  let completed_count := length (get_or (completed_steps s) []) in
  if Nat.eqb error_count 0 && Nat.eqb completed_count 4
  then modify (set_status "completed")
  else if Nat.ltb 0 completed_count
  then modify (set_status "partially_completed")
  else modify (set_status "failed").

Definition _create_workflow : StateGraph.t :=
  let workflow := StateGraph.empty in
  let workflow := StateGraph.add_node "analyze_tone" analyze_tone workflow in
  let workflow := StateGraph.add_node "research_topic" research_topic workflow in
  let workflow := StateGraph.add_node "create_content" create_content workflow in
  let workflow := StateGraph.add_node "generate_image" generate_image workflow in
  let workflow := StateGraph.add_node "finalize" finalize_workflow workflow in
  let workflow := StateGraph.set_entry_point "analyze_tone" workflow in
  let workflow := StateGraph.add_edge "analyze_tone" "research_topic" workflow in
  let workflow := StateGraph.add_edge "research_topic" "create_content" workflow in
  let workflow := StateGraph.add_edge "create_content" "generate_image" workflow in
  let workflow := StateGraph.add_edge "generate_image" "finalize" workflow in
  let workflow := StateGraph.add_edge "finalize" StateGraph.END workflow in
  workflow.

(** The two tests that open [run_workflow]. *)
Definition tone_sample_too_short (sample : string) : bool :=
  negb (truthy (PStr sample)) || Nat.ltb (String.length (PyStr.strip sample)) 10.

Definition topic_too_short (subject : string) : bool :=
  negb (truthy (PStr subject)) || Nat.ltb (String.length (PyStr.strip subject)) 3.

Definition valid_request (sample subject : string) : bool :=
  negb (tone_sample_too_short sample) && negb (topic_too_short subject).

(** A request that passes both tests, in the words of the specification. *)
Definition valid (sample subject : string) : Prop :=
  10 <= String.length (PyStr.strip sample) /\ 3 <= String.length (PyStr.strip subject).

Definition initial_state (sample subject lang : string) : WorkflowState :=
  {| tone_sample := Some (PyStr.strip sample);
     topic := Some (PyStr.strip subject);
     language := Some lang;
     tone_analysis := Some [];
     research_data := Some [];
     content_result := Some [];
     image_result := Some [];
     current_step := Some "start";
     completed_steps := Some [];
     errors := Some [];
     status := Some "starting" |}.

Definition error_state (sample subject lang error_msg : string) : WorkflowState :=
  {| tone_sample := Some sample;
     topic := Some subject;
     language := Some lang;
     tone_analysis := Some [];
     research_data := Some [];
     content_result := Some [];
     image_result := Some [];
     current_step := Some "error";
     completed_steps := Some [];
     errors := Some [error_msg];
     status := Some "error" |}.

(** [run_workflow(tone_sample, topic, language)]; the logging lines are
    left out. *)
Definition run_workflow (sample subject lang : string) : M WorkflowState :=
  try_except
    ((if tone_sample_too_short sample
      then raise (ValueError "Tone sample must be at least 10 characters long")
      else ret tt) ;;
     (if topic_too_short subject
      then raise (ValueError "Topic must be at least 3 characters long")
      else ret tt) ;;
     final_state <- StateGraph.invoke _create_workflow
                      (initial_state sample subject lang) ;;
     ret final_state)
    (fun e =>
       let error_msg := ("Workflow execution failed: " ++ exn_str e)%string in
       ret (error_state sample subject lang error_msg)).

(** *** The status reporter *)

(** [for step in completed: if step in steps: steps[step] = "completed"] *)
Definition mark_completed (steps : list (string * string)) (step : string)
  : list (string * string) :=
  if Dict.has step steps then Dict.set step "completed" steps else steps.

(** The current step becomes "working" unless it is already "completed". *)
Definition mark_current (current : string) (steps : list (string * string))
  : list (string * string) :=
  if Dict.has current steps
     && negb (String.eqb (get_or (Dict.get current steps) "") "completed")
  then Dict.set current "working" steps
  else steps.

(** [for step in steps: if step in error.lower(): steps[step] = "error"; break] *)
Definition mark_error (steps : list (string * string)) (error : string)
  : list (string * string) :=
  match find (fun step => PyStr.contains step (PyStr.lower error)) (Dict.keys steps) with
  | Some step => Dict.set step "error" steps
  | None => steps
  end.

(** The entry [error] is charged to [name]: [name] is the first key, in the
    order of [steps], that occurs in the lower-cased entry. *)
Definition charged_to (keys : list string) (name error : string) : bool :=
  match find (fun step => PyStr.contains step (PyStr.lower error)) keys with
  | Some step => String.eqb step name
  | None => false
  end.

Definition waiting_steps : list (string * string) :=
  [("tone_analysis", "waiting"); ("research", "waiting");
   ("content_creation", "waiting"); ("image_generation", "waiting")].

Definition get_workflow_status : M (list (string * string)) :=
  let steps := waiting_steps in
  s <- get_state ;;
  let steps := fold_left mark_completed (get_or (completed_steps s) []) steps in
  s <- get_state ;;
  let current := get_or (current_step s) "" in
  let steps := mark_current current steps in
  s <- get_state ;;
  let steps := fold_left mark_error (get_or (errors s) []) steps in
  ret steps.

(** [len(v)] *)
Definition py_len (v : pyval) : res nat :=
  match v with
  | PStr s => Ok (String.length s)
  | PList l => Ok (length l)
  | PDict d => Ok (length d)
  | PNone | PBool _ | PInt _ =>
      Raise (TypeError ("object of type '" ++ type_name v ++ "' has no len()")%string)
  end.

Definition str_of_nat (n : nat) : string := PyStr.of_Z (Z.of_nat n).

(** [f"Error: {d['error']}"], the first line of every summarizer. *)
Definition error_line (d : dict) : option string :=
  match Dict.get "error" d with
  | Some v => Some ("Error: " ++ py_str v)%string
  | None => None
  end.

(** [ToneAnalysisAgent.get_tone_summary] *)
Definition get_tone_summary (analysis : dict) : res string :=
  match error_line analysis with
  | Some line => Ok line
  | None =>
      match get_or (Dict.get "characteristics" analysis) (PDict []) with
      | PDict characteristics =>
          let summary_parts :=
            map (fun kv => (fst kv ++ ": " ++ py_str (snd kv))%string)
                (filter (fun kv => negb (eq_str (snd kv) "unknown")) characteristics) in
          Ok (match summary_parts with
              | [] => "Tone analysis completed"
              | _ => PyStr.join "; " summary_parts
              end)
      | v => Raise (AttributeError
                      ("'" ++ type_name v ++ "' object has no attribute 'items'")%string)
      end
  end.

(** [ResearchAgent.get_research_summary] *)
Definition get_research_summary (research_data : dict) : res string :=
  match error_line research_data with
  | Some line => Ok line
  | None =>
      let insights := get_or (Dict.get "insights" research_data) (PList []) in
      if truthy insights then
        match py_len insights with
        | Raise e => Raise e
        | Ok n =>
            match Dict.get "topic" research_data with
            | None => Raise (KeyError "topic")
            | Some t => Ok ("Found " ++ str_of_nat n ++ " key insights about " ++ py_str t)%string
            end
        end
      else
        match Dict.get "topic" research_data with
        | None => Raise (KeyError "topic")
        | Some t => Ok ("Research completed for topic: " ++ py_str t)%string
        end
  end.

(** [ContentCreationAgent.get_content_summary] *)
Definition get_content_summary (content : dict) : res string :=
  match error_line content with
  | Some line => Ok line
  | None =>
      let word_count := get_or (Dict.get "word_count" content) (PInt 0) in
      match py_len (get_or (Dict.get "hashtags" content) (PList [])) with
      | Raise e => Raise e
      | Ok hashtag_count =>
          Ok ("Generated " ++ py_str word_count ++ " word post with "
              ++ str_of_nat hashtag_count ++ " hashtags")%string
      end
  end.

(** [ImageGenerationAgent.get_image_summary] *)
Definition get_image_summary (image : dict) : res string :=
  match error_line image with
  | Some line => Ok line
  | None =>
      if Dict.has "carousel_images" image then
        let slide_count := get_or (Dict.get "slide_count" image) (PInt 0) in
        Ok ("Generated " ++ py_str slide_count ++ "-slide carousel for LinkedIn")%string
      else
        let dimensions := get_or (Dict.get "dimensions" image) (PStr "unknown") in
        Ok ("Generated " ++ py_str dimensions ++ " image for LinkedIn post")%string
  end.

(** The dictionary that [get_results_summary] returns. *)
Record Summary : Type := mkSummary {
  summary_status : string;
  summary_completed_steps : nat;
  summary_total_steps : nat;
  summary_errors : list string;
  summary_results : list (string * string)
}.

(** [summary["results"][key] = text] *)
Definition set_result (key text : string) (summary : Summary) : Summary :=
  mkSummary (summary_status summary) (summary_completed_steps summary)
            (summary_total_steps summary) (summary_errors summary)
            (Dict.set key text (summary_results summary)).

Definition lift_res {A : Type} (r : res A) : M A :=
  match r with
  | Ok a => ret a
  | Raise e => raise e
  end.

(** [d = state.get(field); if d: summary["results"][key] = summarize(d)] *)
Definition add_result (field : WorkflowState -> option dict) (key : string)
    (summarize : dict -> res string) (summary : Summary) : M Summary :=
  s <- get_state ;;
  match field s with
  | Some d =>
      if truthy (PDict d)
      then (text <- lift_res (summarize d) ;; ret (set_result key text summary))
      else ret summary
  | None => ret summary
  end.

Definition get_results_summary : M Summary :=
  s <- get_state ;;
  let summary :=
    {| summary_status := get_or (status s) "unknown";
       summary_completed_steps := length (get_or (completed_steps s) []);
       summary_total_steps := 4;
       summary_errors := get_or (errors s) [];
       summary_results := [] |} in
  summary <- add_result tone_analysis "tone_analysis" get_tone_summary summary ;;
  summary <- add_result research_data "research" get_research_summary summary ;;
  summary <- add_result content_result "content" get_content_summary summary ;;
  summary <- add_result image_result "image" get_image_summary summary ;;
  ret summary.

(** A call of [run_workflow] by the application: nothing is in the store
    before it. *)
Definition fresh : store := mkStore no_keys [] [].

(** *** What one stage adds to the two lists *)

Definition stage_name (st : stage) : string :=
  match st with
  | Tone => "tone_analysis"
  | Research => "research"
  | Content => "content_creation"
  | Image => "image_generation"
  end.

Definition stage_label (st : stage) : string :=
  match st with
  | Tone => "Tone analysis"
  | Research => "Research"
  | Content => "Content creation"
  | Image => "Image generation"
  end.

Definition stage_names : list string := map stage_name [Tone; Research; Content; Image].

Definition is_empty {A : Type} (l : list A) : bool :=
  match l with [] => true | _ => false end.

(** All four stage names appear in [l]. *)
Definition has_all_stages (l : list string) : bool :=
  forallb (fun name => existsb (String.eqb name) l) stage_names.

(** The entry a stage leaves in [completed_steps] (left) or [errors]
    (right), by the outcome of its call. *)
Definition contribution (st : stage) (r : outcome) : list string * list string :=
  match r with
  | Returned d =>
      match Dict.get "error" d with
      | None => ([stage_name st], [])
      | Some v => ([], [(stage_label st ++ " error: " ++ py_str v)%string])
      end
  | Raised e => ([], [(stage_label st ++ " failed: " ++ exn_str e)%string])
  end.

(** A call succeeded: it returned a dictionary without an ["error"] key. *)
Definition succeeded (r : outcome) : bool :=
  match r with
  | Returned d => negb (Dict.has "error" d)
  | Raised _ => false
  end.

(** The stage's result field after its call: written only if the call
    returned. *)
Definition field_after (r : outcome) (before : option dict) : option dict :=
  match r with
  | Returned d => Some d
  | Raised _ => before
  end.

(** The status that [finalize_workflow] derives from the two lists. *)
Definition final_status (completed errs : list string) : string :=
  if Nat.eqb (length errs) 0 && Nat.eqb (length completed) 4 then "completed"
  else if Nat.ltb 0 (length completed) then "partially_completed"
  else "failed".

(** The calls of one run on a valid request, each with the arguments the
    node passes: a later call sees the result fields left by the earlier
    ones. *)
Definition run_calls (sample subject : string) : list call :=
  let ts := PyStr.strip sample in
  let tp := PyStr.strip subject in
  let r1 := ToneAnalysisAgent.analyze_tone (tone_agent self) ts in
  let ta := get_or (field_after r1 (Some [])) [] in
  let r2 := ResearchAgent.research_topic (research_agent self) tp in
  let rd := get_or (field_after r2 (Some [])) [] in
  let r3 := ContentCreationAgent.create_content (content_agent self) ta rd tp in
  let post := post_content_of (field_after r3 (Some [])) in
  let r4 := ImageGenerationAgent.generate_image (image_agent self) post tp in
  [ToneCall ts r1; ResearchCall tp r2; ContentCall ta rd tp r3; ImageCall post tp r4].

Definition contribution_of (c : call) : list string * list string :=
  contribution (stage_of c) (outcome_of c).

(** The two lists once the first [k] calls of [cl] have been handled. *)
Definition completed_after (k : nat) (cl : list call) : list string :=
  fold_left (fun acc c => acc ++ fst (contribution_of c)) (firstn k cl) [].

Definition errors_after (k : nat) (cl : list call) : list string :=
  fold_left (fun acc c => acc ++ snd (contribution_of c)) (firstn k cl) [].

Definition stage_eqb (a b : stage) : bool :=
  match a, b with
  | Tone, Tone | Research, Research | Content, Content | Image, Image => true
  | _, _ => false
  end.

(** The result field of stage [st] after the calls [cl], starting from the
    empty dictionary of [initial_state]. *)
Definition result_after (st : stage) (cl : list call) : option dict :=
  match find (fun c => stage_eqb (stage_of c) st) cl with
  | Some c => field_after (outcome_of c) (Some [])
  | None => Some []
  end.

(** The state that one run on a valid request ends in (see
    [run_workflow_valid]). *)
Definition final_state_of (sample subject lang : string) : WorkflowState :=
  let cl := run_calls sample subject in
  {| tone_sample := Some (PyStr.strip sample);
     topic := Some (PyStr.strip subject);
     language := Some lang;
     tone_analysis := result_after Tone cl;
     research_data := result_after Research cl;
     content_result := result_after Content cl;
     image_result := result_after Image cl;
     current_step := Some "completed";
     completed_steps := Some (completed_after 4 cl);
     errors := Some (errors_after 4 cl);
     status := Some (final_status (completed_after 4 cl) (errors_after 4 cl)) |}.

(** A state whose two lists are those left by the first [k] calls. *)
Definition at_stage (cl : list call) (k : nat) (s : WorkflowState) : Prop :=
  completed_of s = completed_after k cl /\ errors_of s = errors_after k cl.


(** During a stage the two lists are as before it or as after it. *)
Definition lists_among (cs es cs' es' : list string) (s : WorkflowState) : Prop :=
  (completed_of s = cs /\ errors_of s = es) \/ (completed_of s = cs' /\ errors_of s = es').

(** *** The tone agent (agents/tone_agent.py) *)

(** [any(word in text for word in keywords)] *)
Definition contains_any (keywords : list string) (text : string) : bool :=
  existsb (fun word => PyStr.contains word text) keywords.

Definition _extract_characteristics (analysis_text : string) : dict :=
  let characteristics : dict :=
    [("formality", PStr "unknown"); ("energy", PStr "unknown");
     ("expertise", PStr "unknown"); ("personality", PStr "unknown")] in
  let text_lower := PyStr.lower analysis_text in
  let characteristics :=
    if contains_any ["formal"; "professional"; "business"] text_lower
    then Dict.set "formality" (PStr "formal") characteristics
    else if contains_any ["casual"; "informal"; "conversational"] text_lower
    then Dict.set "formality" (PStr "casual") characteristics
    else characteristics in
  let characteristics :=
    if contains_any ["energetic"; "enthusiastic"; "excited"] text_lower
    then Dict.set "energy" (PStr "high") characteristics
    else if contains_any ["calm"; "measured"; "steady"] text_lower
    then Dict.set "energy" (PStr "moderate") characteristics
    else characteristics in
  let characteristics :=
    if contains_any ["expert"; "technical"; "authoritative"] text_lower
    then Dict.set "expertise" (PStr "high") characteristics
    else if contains_any ["beginner"; "learning"; "accessible"] text_lower
    then Dict.set "expertise" (PStr "accessible") characteristics
    else characteristics in
  characteristics.

(** [ToneAnalysisAgent.analyze_tone]; [chain_run] is the call to the
    language model, which returns the analysis text or raises. *)
Definition tone_agent_analyze_tone (chain_run : string -> res string)
    (sample : string) : outcome :=
  let body : res dict :=
    if tone_sample_too_short sample
    then Raise (ValueError "Tone sample must be at least 10 characters long")
    else match chain_run sample with
         | Raise e => Raise e
         | Ok result =>
             Ok [("raw_analysis", PStr result);
                 ("tone_sample", PStr sample);
                 ("status", PStr "completed");
                 ("characteristics", PDict (_extract_characteristics result))]
         end in
  match body with
  | Ok analysis => Returned analysis
  | Raise e =>
      Returned [("error", PStr (exn_str e)); ("status", PStr "error");
                ("tone_sample", PStr sample)]
  end.

(** The supervisor [self] with the tone agent of the repository. *)
Definition with_tone_agent (chain_run : string -> res string) : SupervisorAgent :=
  {| tone_agent :=
       {| ToneAnalysisAgent.analyze_tone := tone_agent_analyze_tone chain_run |};
     research_agent := research_agent self;
     content_agent := content_agent self;
     image_agent := image_agent self |}.

(** *** The research agent (agents/research_agent.py) *)




(** *** The content agent (agents/content_agent.py) *)

Definition newline_str : string := String PyText.newline EmptyString.

(** [f"{key}: {value}"] for the items whose value is not "unknown". *)
Definition known_items (chars : dict) : list string :=
  map (fun kv => (fst kv ++ ": " ++ py_str (snd kv))%string)
      (filter (fun kv => negb (eq_str (snd kv) "unknown")) chars).

Definition _format_tone_profile (tone_analysis : dict) : res string :=
  if Dict.has "error" tone_analysis then Ok "No tone analysis available"
  else
    let profile_parts :=
      match Dict.get "raw_analysis" tone_analysis with
      | Some v => [("Analysis: " ++ py_str v)%string]
      | None => []
      end in
    match Dict.get "characteristics" tone_analysis with
    | None => Ok (PyStr.join newline_str profile_parts)
    | Some (PDict chars) =>
        let char_desc := known_items chars in
        let profile_parts :=
          if is_empty char_desc then profile_parts
          else profile_parts
               ++ [("Key characteristics: " ++ PyStr.join ", " char_desc)%string] in
        Ok (PyStr.join newline_str profile_parts)
    | Some v =>
        Raise (AttributeError
                 ("'" ++ type_name v ++ "' object has no attribute 'items'")%string)
    end.

(** The items of a list handed to [str.join]: each must be a [str]. *)
Fixpoint join_items (i : nat) (l : list pyval) : res (list string) :=
  match l with
  | [] => Ok []
  | PStr s :: r =>
      match join_items (S i) r with
      | Ok rest => Ok (s :: rest)
      | Raise e => Raise e
      end
  | v :: _ =>
      Raise (TypeError ("sequence item " ++ str_of_nat i ++ ": expected str instance, "
                        ++ type_name v ++ " found")%string)
  end.

Definition chars_of (s : string) : list string :=
  map (fun c => String c EmptyString) (list_ascii_of_string s).

(** [sep.join(v)] *)
Definition py_join (sep : string) (v : pyval) : res string :=
  match v with
  | PList l =>
      match join_items 0 l with
      | Ok items => Ok (PyStr.join sep items)
      | Raise e => Raise e
      end
  | PStr s => Ok (PyStr.join sep (chars_of s))
  | PDict d => Ok (PyStr.join sep (Dict.keys d))
  | PNone | PBool _ | PInt _ => Raise (TypeError "can only join an iterable")
  end.

(** [if key in d and d[key]: parts.append(f"{label}{sep.join(d[key])}")] *)
Definition joined_part (key label sep : string) (d : dict) : res (list string) :=
  match Dict.get key d with
  | Some v =>
      if truthy v
      then match py_join sep v with
           | Ok text => Ok [(label ++ text)%string]
           | Raise e => Raise e
           end
      else Ok []
  | None => Ok []
  end.

Definition _format_research_data (research_data : dict) : res string :=
  if Dict.has "error" research_data then Ok "No research data available"
  else
    let analysis_part :=
      match Dict.get "analysis" research_data with
      | Some v => [("Research Analysis: " ++ py_str v)%string]
      | None => []
      end in
    match joined_part "insights" "Key Insights: " "; " research_data with
    | Raise e => Raise e
    | Ok insights_part =>
        match joined_part "hashtags" "Relevant Hashtags: " " " research_data with
        | Raise e => Raise e
        | Ok hashtags_part =>
            Ok (PyStr.join newline_str (analysis_part ++ insights_part ++ hashtags_part))
        end
    end.

(** One turn of the loop of [_process_content]: a line that starts with
    "#" gets an empty line in front of it unless it comes first or after a
    blank line. *)
Definition add_line (processed_lines : list string) (line : string) : list string :=
  if PyText.startswith (PyStr.strip line) "#"
     && negb (is_empty processed_lines)
     && negb (String.eqb (PyStr.strip (last processed_lines "")) "")
  then processed_lines ++ [""; line]
  else processed_lines ++ [line].

Definition _process_content (content : string) : string :=
  let content := PyText.squeeze_newlines content in
  let content := PyStr.strip content in
  if PyStr.contains "#" content
  then PyStr.join newline_str
         (fold_left add_line (PyText.split PyText.newline content) [])
  else content.

(** One turn of the inner loop of [optimize_for_linkedin], on the pair
    [(optimized_lines, current_line)]. *)
Definition wrap_word (acc : list string * list string) (word : string)
  : list string * list string :=
  let (optimized_lines, current_line) := acc in
  if Nat.ltb 100 (String.length (PyStr.join " " (current_line ++ [word])))
  then (optimized_lines ++ [PyStr.join " " current_line], [word])
  else (optimized_lines, current_line ++ [word]).

(** One turn of its outer loop. *)
Definition reflow_line (optimized_lines : list string) (line : string) : list string :=
  if Nat.ltb 100 (String.length line)
     && negb (PyText.startswith (PyStr.strip line) "#")
  then
    let (optimized_lines, current_line) :=
      fold_left wrap_word (PyText.words line) (optimized_lines, []) in
    if is_empty current_line then optimized_lines
    else optimized_lines ++ [PyStr.join " " current_line]
  else optimized_lines ++ [line].

Definition optimize_for_linkedin (content : string) : string :=
  PyStr.join newline_str
    (fold_left reflow_line (PyText.split PyText.newline content) []).

(** *** The image agent (agents/image_agent.py) *)

(** The keyword extraction that precedes the return is computed and
    dropped by the source; only the summary is returned. *)
Definition _summarize_content_for_image (post_content : string) : string :=
  if Nat.ltb 100 (String.length post_content)
  then (PyText.take 100 post_content ++ "...")%string
  else post_content.

(** *** The configuration (utils/config.py) *)

Record Config : Type := {
  _openai_api_key : option string;
  _tavily_api_key : option string;
  _langchain_api_key : option string;
  _langchain_tracing_v2 : bool;
  _langchain_project : string;
  _openai_model : string;
  _dalle_model : string;
  _tavily_max_results : Z
}.

(** [Config.__init__], reading the environment through [getenv]. *)
Definition Config_init (getenv : string -> option string) : Config :=
  {| _openai_api_key := getenv "OPENAI_API_KEY";
     _tavily_api_key := getenv "TAVILY_API_KEY";
     _langchain_api_key := getenv "LANGCHAIN_API_KEY";
     _langchain_tracing_v2 :=
       String.eqb (PyStr.lower (get_or (getenv "LANGCHAIN_TRACING_V2") "false")) "true";
     _langchain_project := get_or (getenv "LANGCHAIN_PROJECT") "linkedin-content-creator";
     _openai_model := "gpt-4-turbo-preview";
     _dalle_model := "dall-e-3";
     _tavily_max_results := 5%Z |}.

(** [not key] for a key read from the environment. *)
Definition key_unset (key : option string) : bool :=
  match key with
  | None => true
  | Some s => negb (truthy (PStr s))
  end.

Definition validate_keys (config : Config) : res bool :=
  let missing_keys := [] in
  let missing_keys :=
    if key_unset (_openai_api_key config)
    then missing_keys ++ ["OPENAI_API_KEY"] else missing_keys in
  let missing_keys :=
    if key_unset (_tavily_api_key config)
    then missing_keys ++ ["TAVILY_API_KEY"] else missing_keys in
  if negb (is_empty missing_keys)
  then Raise (ValueError ("Missing required API keys: "
                          ++ PyStr.join ", " missing_keys)%string)
  else Ok true.

(** *** The interface (utils/ui_components.py and app.py) *)

Definition status_messages : list (string * list (string * string)) :=
  [("tone_analysis",
    [("waiting", "Waiting to analyze your tone...");
     ("working", "Analyzing your writing style...");
     ("completed", "Tone analysis complete");
     ("error", "Error analyzing tone")]);
   ("research",
    [("waiting", "Waiting to research topic...");
     ("working", "Gathering insights...");
     ("completed", "Research complete");
     ("error", "Error during research")]);
   ("content_creation",
    [("waiting", "Waiting to create content...");
     ("working", "Writing your post...");
     ("completed", "Content creation complete");
     ("error", "Error creating content")]);
   ("image_generation",
    [("waiting", "Waiting to generate image...");
     ("working", "Creating image...");
     ("completed", "Image generation complete");
     ("error", "Error generating image")])].

Definition get_status_message (agent status : string) : string :=
  get_or (Dict.get status (get_or (Dict.get agent status_messages) []))
         "Status unknown".

(** The reset of [main] before a run: every status becomes "waiting". *)
Definition reset_agent_statuses (agent_statuses : list (string * string))
  : list (string * string) :=
  map (fun kv => (fst kv, "waiting")) agent_statuses.

(** One turn of the loop that follows the run in
    [run_workflow_with_real_time_progress]. *)
Definition update_agent_status (completed errs : list string)
    (agent_statuses : list (string * string)) (step : string)
  : list (string * string) :=
  if existsb (String.eqb step) completed
  then Dict.set step "completed" agent_statuses
  else if existsb (fun error => PyStr.contains step (PyStr.lower error)) errs
  then Dict.set step "error" agent_statuses
  else agent_statuses.

(** [bool(workflow_result)]: the dictionary holds at least one key. *)
Definition has_keys (s : WorkflowState) : bool :=
  match tone_sample s, topic s, language s, tone_analysis s, research_data s,
        content_result s, image_result s, current_step s, completed_steps s,
        errors s, status s with
  | None, None, None, None, None, None, None, None, None, None, None => false
  | _, _, _, _, _, _, _, _, _, _, _ => true
  end.

Definition update_agent_statuses (workflow_result : WorkflowState)
    (agent_statuses : list (string * string)) : list (string * string) :=
  let steps := ["tone_analysis"; "research"; "content_creation"; "image_generation"] in
  if has_keys workflow_result
  then fold_left (update_agent_status (completed_of workflow_result)
                                      (errors_of workflow_result))
                 steps agent_statuses
  else agent_statuses.

(** No line that starts with "#" comes right after a line that is not
    blank. *)
Fixpoint hashtags_spaced (lines : list string) : Prop :=
  match lines with
  | a :: (b :: _) as rest =>
      (PyText.startswith (PyStr.strip b) "#" = true -> PyStr.strip a = "")
      /\ hashtags_spaced rest
  | _ => True
  end.

Definition non_empty_lines (lines : list string) : list string :=
  filter (fun line => negb (String.eqb line "")) lines.

(** A line that [optimize_for_linkedin] may emit for the input lines
    [input]: one of at most 100 characters, an input line that starts
    with "#", or a single word of an input line. *)
Definition line_fits (input : list string) (line : string) : Prop :=
  String.length line <= 100
  \/ (In line input /\ PyText.startswith (PyStr.strip line) "#" = true)
  \/ (exists source, In source input /\ In line (PyText.words source)).

(** The node of a stage, and the key of the state it reads its input
    from. *)
Definition stage_node (stg : stage) : M unit :=
  match stg with
  | Tone => analyze_tone
  | Research => research_topic
  | Content => create_content
  | Image => generate_image
  end.

Definition input_key (stg : stage) : string :=
  match stg with
  | Tone => "tone_sample"
  | Research | Content | Image => "topic"
  end.

Definition input_of (stg : stage) (s : WorkflowState) : option string :=
  match stg with
  | Tone => tone_sample s
  | Research | Content | Image => topic s
  end.

(** ** Properties *)

(** *** The nodes, one by one *)

Ltac run_node :=
  cbv [bind ret raise try_except get_state put_state modify record_call
       setdefault setdefault_errors setdefault_completed_steps
       setdefault_current_step setdefault_status getitem dict_getitem
       append_completed_step append_error append_error_of lift_outcome
       call_tone call_research call_content call_image]; cbn.

Ltac among :=
  unfold lists_among;
  first [ left; split; reflexivity | right; split; reflexivity ].

Ltac node_done :=
  rewrite ?app_nil_r, <- ?app_assoc;
  eexists; split;
  [ reflexivity | repeat (apply Forall_cons; [ among | ]); apply Forall_nil ].

Lemma analyze_tone_run ts tp lang (ta rd cr ir : option dict) cur cs es stt cl hist :
  let r := ToneAnalysisAgent.analyze_tone (tone_agent self) ts in
  let cs' := cs ++ fst (contribution Tone r) in
  let es' := es ++ snd (contribution Tone r) in
  exists trail,
    analyze_tone (mkStore (mkState (Some ts) (Some tp) lang ta rd cr ir cur
                                   (Some cs) (Some es) stt) cl hist)
    = (Ok tt,
       mkStore (mkState (Some ts) (Some tp) lang (field_after r ta) rd cr ir
                        (Some "tone_analysis") (Some cs') (Some es') (Some "working"))
               (cl ++ [ToneCall ts r]) (hist ++ trail))
    /\ Forall (lists_among cs es cs' es') trail.
Proof.
  intros r cs' es'. subst cs' es' r. unfold analyze_tone.
  destruct cur, stt; run_node.
  all: destruct (ToneAnalysisAgent.analyze_tone (tone_agent self) ts) as [d | e]; cbn.
  all: try (unfold Dict.has; destruct (Dict.get "error" d) as [v | ]; cbn).
  all: node_done.
Qed.

Lemma research_topic_run ts tp lang (ta rd cr ir : option dict) cur cs es stt cl hist :
  let r := ResearchAgent.research_topic (research_agent self) tp in
  let cs' := cs ++ fst (contribution Research r) in
  let es' := es ++ snd (contribution Research r) in
  exists trail,
    research_topic (mkStore (mkState (Some ts) (Some tp) lang ta rd cr ir cur
                                   (Some cs) (Some es) stt) cl hist)
    = (Ok tt,
       mkStore (mkState (Some ts) (Some tp) lang ta (field_after r rd) cr ir
                        (Some "research") (Some cs') (Some es') (Some "working"))
               (cl ++ [ResearchCall tp r]) (hist ++ trail))
    /\ Forall (lists_among cs es cs' es') trail.
Proof.
  intros r cs' es'. subst cs' es' r. unfold research_topic.
  run_node.
  all: destruct (ResearchAgent.research_topic (research_agent self) tp) as [d | e]; cbn.
  all: try (unfold Dict.has; destruct (Dict.get "error" d) as [v | ]; cbn).
  all: node_done.
Qed.

Lemma create_content_run ts tp lang (ta rd cr ir : option dict) cur cs es stt cl hist :
  let r := ContentCreationAgent.create_content (content_agent self) (@get_or dict ta []) (@get_or dict rd []) tp in
  let cs' := cs ++ fst (contribution Content r) in
  let es' := es ++ snd (contribution Content r) in
  exists trail,
    create_content (mkStore (mkState (Some ts) (Some tp) lang ta rd cr ir cur
                                   (Some cs) (Some es) stt) cl hist)
    = (Ok tt,
       mkStore (mkState (Some ts) (Some tp) lang ta rd (field_after r cr) ir
                        (Some "content_creation") (Some cs') (Some es') (Some "working"))
               (cl ++ [ContentCall (@get_or dict ta []) (@get_or dict rd []) tp r]) (hist ++ trail))
    /\ Forall (lists_among cs es cs' es') trail.
Proof.
  intros r cs' es'. subst cs' es' r. unfold create_content.
  run_node.
  all: destruct (ContentCreationAgent.create_content (content_agent self) (@get_or dict ta []) (@get_or dict rd []) tp) as [d | e]; cbn.
  all: try (unfold Dict.has; destruct (Dict.get "error" d) as [v | ]; cbn).
  all: node_done.
Qed.

Lemma generate_image_run ts tp lang (ta rd cr ir : option dict) cur cs es stt cl hist :
  let r := ImageGenerationAgent.generate_image (image_agent self) (post_content_of cr) tp in
  let cs' := cs ++ fst (contribution Image r) in
  let es' := es ++ snd (contribution Image r) in
  exists trail,
    generate_image (mkStore (mkState (Some ts) (Some tp) lang ta rd cr ir cur
                                   (Some cs) (Some es) stt) cl hist)
    = (Ok tt,
       mkStore (mkState (Some ts) (Some tp) lang ta rd cr (field_after r ir)
                        (Some "image_generation") (Some cs') (Some es') (Some "working"))
               (cl ++ [ImageCall (post_content_of cr) tp r]) (hist ++ trail))
    /\ Forall (lists_among cs es cs' es') trail.
Proof.
  intros r cs' es'. subst cs' es' r. unfold generate_image.
  run_node.
  all: destruct (ImageGenerationAgent.generate_image (image_agent self) (post_content_of cr) tp) as [d | e]; cbn.
  all: try (unfold Dict.has; destruct (Dict.get "error" d) as [v | ]; cbn).
  all: node_done.
Qed.

Lemma finalize_workflow_run ts tp lang (ta rd cr ir : option dict) cur cs es stt cl hist :
  exists trail,
    finalize_workflow (mkStore (mkState ts tp lang ta rd cr ir cur
                                        (Some cs) (Some es) stt) cl hist)
    = (Ok tt,
       mkStore (mkState ts tp lang ta rd cr ir (Some "completed") (Some cs)
                        (Some es) (Some (final_status cs es)))
               cl (hist ++ trail))
    /\ Forall (lists_among cs es cs es) trail.
Proof.
  unfold finalize_workflow, final_status.
  run_node.
  destruct (length es) as [ | ne]; destruct (length cs) as [ | [ | [ | [ | [ | nc]]]]]; cbn.
  all: node_done.
Qed.

(** *** The whole run *)

Lemma invoke_chain s0 :
  StateGraph.invoke _create_workflow s0
  = (put_state s0 ;;
     (analyze_tone ;; research_topic ;; create_content ;; generate_image ;;
      finalize_workflow ;; ret tt) ;;
     get_state).
Proof. reflexivity. Qed.

Lemma bind_ok {A B : Type} (m : M A) (k : A -> M B) st a st' :
  m st = (Ok a, st') -> bind m k st = k a st'.
Proof. intros H. unfold bind. rewrite H. reflexivity. Qed.

Lemma valid_request_tests sample subject :
  valid_request sample subject = true ->
  tone_sample_too_short sample = false /\ topic_too_short subject = false.
Proof.
  unfold valid_request. intros H. apply andb_prop in H as [H1 H2].
  split; apply negb_true_iff; assumption.
Qed.

Lemma among_at_stage cl k cs es cs' es' trail :
  cs = completed_after k cl -> es = errors_after k cl ->
  cs' = completed_after (S k) cl -> es' = errors_after (S k) cl ->
  Forall (lists_among cs es cs' es') trail ->
  Forall (fun s => at_stage cl k s \/ at_stage cl (S k) s) trail.
Proof.
  intros -> -> -> -> H. eapply Forall_impl; [ | exact H ].
  intros s [[Hc He] | [Hc He]]; [left | right]; split; assumption.
Qed.

Lemma at_stage_bound cl k trail :
  S k <= 4 ->
  Forall (fun s => at_stage cl k s \/ at_stage cl (S k) s) trail ->
  Forall (fun s => exists j, j <= 4 /\ at_stage cl j s) trail.
Proof.
  intros Hk H. eapply Forall_impl; [ | exact H ].
  intros s [Hs | Hs]; [exists k | exists (S k)]; split; auto; lia.
Qed.

Lemma among_same cl k cs es trail :
  k <= 4 -> cs = completed_after k cl -> es = errors_after k cl ->
  Forall (lists_among cs es cs es) trail ->
  Forall (fun s => exists j, j <= 4 /\ at_stage cl j s) trail.
Proof.
  intros Hk -> -> H. eapply Forall_impl; [ | exact H ].
  intros s [[Hc He] | [Hc He]]; exists k; repeat split; assumption.
Qed.

Ltac step_node node lem t H F :=
  match goal with
  | |- context [node (mkStore (mkState ?ts ?tp ?lang ?ta ?rd ?cr ?ir
                                 ?cur (Some ?cs) (Some ?es) ?stt) ?cl ?hist)] =>
      destruct (lem ts tp lang ta rd cr ir cur cs es stt cl hist) as [t [H F]];
      rewrite H; cbv beta iota
  end.

Ltac step_stage node lem t H F :=
  match goal with
  | |- context [node (mkStore (mkState (Some ?ts) (Some ?tp) ?lang ?ta ?rd ?cr ?ir
                                 ?cur (Some ?cs) (Some ?es) ?stt) ?cl ?hist)] =>
      destruct (lem ts tp lang ta rd cr ir cur cs es stt cl hist) as [t [H F]];
      rewrite H; cbv beta iota
  end.

Lemma run_workflow_valid sample subject lang :
  valid_request sample subject = true ->
  let cl := run_calls sample subject in
  let final := final_state_of sample subject lang in
  exists hist,
    run_workflow sample subject lang fresh = (Ok final, mkStore final cl hist)
    /\ Forall (fun s => exists k, k <= 4 /\ at_stage cl k s) hist.
Proof.
  intros Hv cl final. apply valid_request_tests in Hv as [Hs Ht].
  unfold run_workflow. rewrite Hs, Ht, invoke_chain.
  unfold try_except, fresh, initial_state.
  cbv [bind put_state ret get_state]. cbn [state calls history app].
  step_stage analyze_tone analyze_tone_run t1 H1 F1.
  step_stage research_topic research_topic_run t2 H2 F2.
  step_stage create_content create_content_run t3 H3 F3.
  step_stage generate_image generate_image_run t4 H4 F4.
  step_node finalize_workflow finalize_workflow_run t5 H5 F5.
  cbn [state].
  eexists. split; [ reflexivity | ].
  clear H1 H2 H3 H4 H5.
  repeat rewrite Forall_app. repeat split.
  - constructor; [ | constructor ].
    exists 0. split; [ lia | split; reflexivity ].
  - apply (at_stage_bound cl 0); [ lia | ].
    eapply among_at_stage; [ .. | exact F1 ]; reflexivity.
  - apply (at_stage_bound cl 1); [ lia | ].
    eapply among_at_stage; [ .. | exact F2 ]; reflexivity.
  - apply (at_stage_bound cl 2); [ lia | ].
    eapply among_at_stage; [ .. | exact F3 ]; reflexivity.
  - apply (at_stage_bound cl 3); [ lia | ].
    eapply among_at_stage; [ .. | exact F4 ]; reflexivity.
  - eapply (among_same cl 4); [ lia | .. | exact F5 ]; reflexivity.
Qed.

(** *** The two lists as concatenations of contributions *)

Lemma contribution_shape st r :
  contribution st r = ([stage_name st], [])
  \/ exists msg, contribution st r = ([], [msg]).
Proof.
  destruct r as [d | e]; cbn.
  - destruct (Dict.get "error" d); [ right; eexists | left ]; reflexivity.
  - right. eexists. reflexivity.
Qed.

Lemma fold_app_flat_map {A B : Type} (f : A -> list B) (l : list A) (acc : list B) :
  fold_left (fun a c => a ++ f c) l acc = acc ++ flat_map f l.
Proof.
  revert acc. induction l as [ | c l IH]; intros acc; cbn.
  - symmetry. apply app_nil_r.
  - rewrite IH, <- app_assoc. reflexivity.
Qed.

Lemma completed_after_flat k cl :
  completed_after k cl = flat_map (fun c => fst (contribution_of c)) (firstn k cl).
Proof. unfold completed_after. apply (fold_app_flat_map _ _ []). Qed.

Lemma errors_after_flat k cl :
  errors_after k cl = flat_map (fun c => snd (contribution_of c)) (firstn k cl).
Proof. unfold errors_after. apply (fold_app_flat_map _ _ []). Qed.

Lemma one_entry_per_call (l : list call) :
  length (flat_map (fun c => fst (contribution_of c)) l)
  + length (flat_map (fun c => snd (contribution_of c)) l) = length l.
Proof.
  induction l as [ | c l IH]; cbn; [ reflexivity | ].
  rewrite !length_app. unfold contribution_of at 1 3.
  destruct (contribution_shape (stage_of c) (outcome_of c)) as [H | [msg H]];
    rewrite H; cbn; lia.
Qed.

Lemma lists_length k cl :
  length (completed_after k cl) + length (errors_after k cl) = length (firstn k cl).
Proof. rewrite completed_after_flat, errors_after_flat. apply one_entry_per_call. Qed.

Lemma stage_name_inj a b : stage_name a = stage_name b -> a = b.
Proof. destruct a, b; cbn; intros H; try reflexivity; discriminate H. Qed.

Lemma in_completed_flat x (l : list call) :
  In x (flat_map (fun c => fst (contribution_of c)) l) ->
  exists c, In c l /\ x = stage_name (stage_of c) /\ succeeded (outcome_of c) = true.
Proof.
  rewrite in_flat_map. intros [c [Hc Hx]]. exists c. split; [ exact Hc | ].
  unfold contribution_of, contribution, succeeded, Dict.has in *.
  destruct (outcome_of c) as [d | e]; [ destruct (Dict.get "error" d) | ];
    cbn in Hx; intuition.
Qed.

Lemma succeeded_in_completed c (l : list call) :
  In c l -> succeeded (outcome_of c) = true ->
  In (stage_name (stage_of c)) (flat_map (fun c => fst (contribution_of c)) l).
Proof.
  intros Hc Hs. rewrite in_flat_map. exists c. split; [ exact Hc | ].
  unfold contribution_of, contribution, succeeded, Dict.has in *.
  destruct (outcome_of c) as [d | e]; [ destruct (Dict.get "error" d) | ];
    cbn in *; auto; discriminate.
Qed.

Lemma completed_nodup (l : list call) :
  NoDup (map stage_of l) ->
  NoDup (flat_map (fun c => fst (contribution_of c)) l).
Proof.
  induction l as [ | c l IH]; cbn; intros H; [ constructor | ].
  inversion H as [ | x xs Hnotin Hrest]; subst.
  unfold contribution_of at 1.
  destruct (contribution_shape (stage_of c) (outcome_of c)) as [E | [msg E]];
    rewrite E; cbn; [ | auto ].
  constructor; [ | auto ].
  intros Hin. apply in_completed_flat in Hin as [c' [Hc' [Hname _]]].
  apply stage_name_inj in Hname. apply Hnotin. rewrite Hname.
  apply in_map. exact Hc'.
Qed.

Lemma nodup_firstn {A : Type} k (l : list A) : NoDup l -> NoDup (firstn k l).
Proof.
  intros H. rewrite <- (firstn_skipn k l) in H.
  apply NoDup_app_remove_r in H. exact H.
Qed.

Lemma completed_after_nodup k cl :
  NoDup (map stage_of cl) -> NoDup (completed_after k cl).
Proof.
  intros H. rewrite completed_after_flat. apply completed_nodup.
  rewrite <- firstn_map. apply nodup_firstn. exact H.
Qed.

Lemma run_calls_stages sample subject :
  map stage_of (run_calls sample subject) = [Tone; Research; Content; Image].
Proof. reflexivity. Qed.

Lemma stages_nodup : NoDup [Tone; Research; Content; Image].
Proof.
  repeat constructor; cbn; intuition discriminate.
Qed.

Lemma final_status_cases (c1 c2 c3 c4 : call) :
  stage_of c1 = Tone -> stage_of c2 = Research ->
  stage_of c3 = Content -> stage_of c4 = Image ->
  let cs := completed_after 4 [c1; c2; c3; c4] in
  let es := errors_after 4 [c1; c2; c3; c4] in
  final_status cs es
  = (if is_empty es && has_all_stages cs then "completed"
     else if negb (is_empty cs) then "partially_completed"
     else "failed")
  /\ (final_status cs es = "completed"
      <-> es = [] /\ forall st, In (stage_name st) cs)
  /\ (final_status cs es = "failed" <-> cs = []).
Proof.
  intros H1 H2 H3 H4 cs es. subst cs es.
  unfold completed_after, errors_after, contribution_of.
  cbn [firstn fold_left]. rewrite H1, H2, H3, H4.
  destruct (contribution_shape Tone (outcome_of c1)) as [E1 | [m1 E1]];
  destruct (contribution_shape Research (outcome_of c2)) as [E2 | [m2 E2]];
  destruct (contribution_shape Content (outcome_of c3)) as [E3 | [m3 E3]];
  destruct (contribution_shape Image (outcome_of c4)) as [E4 | [m4 E4]];
  rewrite E1, E2, E3, E4; cbn.
  all: split; [ reflexivity | ].
  all: split; split;
    try discriminate; try (intros [? _]; discriminate); try reflexivity.
  all: try (intros [_ H]; exfalso).
  all: try (intros _; split; [ reflexivity | intros []; cbn; tauto ]).
Qed.

(** *** The two tests of [run_workflow] and the specification's wording *)

Lemma truthy_length s : 1 <= String.length (PyStr.strip s) -> truthy (PStr s) = true.
Proof. destruct s; cbn; [ lia | reflexivity ]. Qed.

Lemma valid_iff sample subject :
  valid sample subject <-> valid_request sample subject = true.
Proof.
  unfold valid, valid_request, tone_sample_too_short, topic_too_short.
  rewrite andb_true_iff, !negb_true_iff, !orb_false_iff, !negb_false_iff,
    !Nat.ltb_ge.
  split.
  - intros [H1 H2]. repeat split; try assumption; apply truthy_length; lia.
  - intros [[_ H1] [_ H2]]. split; assumption.
Qed.

End Supervisor.

(** *** Dictionaries *)

Lemma get_set_same {V : Type} k (v : V) d : Dict.get k (Dict.set k v d) = Some v.
Proof.
  induction d as [ | [k' v'] d IH]; cbn.
  - rewrite String.eqb_refl. reflexivity.
  - destruct (String.eqb k k') eqn:E; cbn.
    + rewrite String.eqb_refl. reflexivity.
    + rewrite E. exact IH.
Qed.

Lemma get_set_other {V : Type} k k' (v : V) d :
  k <> k' -> Dict.get k (Dict.set k' v d) = Dict.get k d.
Proof.
  intros Hne. induction d as [ | [k0 v0] d IH]; cbn.
  - destruct (String.eqb_spec k k'); [ contradiction | reflexivity ].
  - destruct (String.eqb_spec k' k0); cbn.
    + subst k0. destruct (String.eqb_spec k k'); [ contradiction | reflexivity ].
    + destruct (String.eqb k k0); [ reflexivity | exact IH ].
Qed.

Lemma has_set {V : Type} k k' (v : V) d :
  Dict.has k d = true -> Dict.has k (Dict.set k' v d) = true.
Proof.
  unfold Dict.has. destruct (String.eqb_spec k k') as [-> | Hne].
  - rewrite get_set_same. reflexivity.
  - rewrite get_set_other by exact Hne. auto.
Qed.

(** *** The status reporter, loop by loop *)

Lemma mark_completed_has name steps step :
  Dict.has name steps = true -> Dict.has name (mark_completed steps step) = true.
Proof.
  intros H. unfold mark_completed. destruct (Dict.has step steps); [ | exact H ].
  apply has_set. exact H.
Qed.

Lemma mark_completed_keeps name steps step :
  Dict.get name steps = Some "completed" ->
  Dict.get name (mark_completed steps step) = Some "completed".
Proof.
  intros H. unfold mark_completed. destruct (Dict.has step steps); [ | exact H ].
  destruct (String.eqb_spec name step) as [-> | Hne].
  - apply get_set_same.
  - rewrite get_set_other by exact Hne. exact H.
Qed.

Lemma mark_completed_all_keeps name l steps :
  Dict.get name steps = Some "completed" ->
  Dict.get name (fold_left mark_completed l steps) = Some "completed".
Proof.
  revert steps. induction l as [ | x l IH]; intros steps H; cbn; [ exact H | ].
  apply IH, mark_completed_keeps, H.
Qed.

Lemma mark_completed_all name l steps :
  In name l -> Dict.has name steps = true ->
  Dict.get name (fold_left mark_completed l steps) = Some "completed".
Proof.
  revert steps. induction l as [ | x l IH]; intros steps Hin Hhas; [ destruct Hin | ].
  cbn. destruct Hin as [-> | Hin].
  - apply mark_completed_all_keeps. unfold mark_completed.
    rewrite Hhas. apply get_set_same.
  - apply IH; [ exact Hin | apply mark_completed_has, Hhas ].
Qed.

Lemma mark_current_keeps name current steps :
  Dict.get name steps = Some "completed" ->
  Dict.get name (mark_current current steps) = Some "completed".
Proof.
  intros H. unfold mark_current.
  destruct (String.eqb_spec name current) as [<- | Hne].
  - rewrite H. cbn. rewrite andb_false_r. exact H.
  - destruct (_ && _); [ | exact H ].
    rewrite get_set_other by exact Hne. exact H.
Qed.



Lemma get_workflow_status_run st :
  get_workflow_status st
  = (Ok (fold_left mark_error (errors_of (state st))
           (mark_current (get_or (current_step (state st)) "")
              (fold_left mark_completed (completed_of (state st)) waiting_steps))),
     st).
Proof. reflexivity. Qed.

(** *** Computations that only read *)

Lemma readonly_ret {A : Type} (a : A) : readonly (ret a).
Proof. intros st. reflexivity. Qed.

Lemma readonly_raise {A : Type} (e : exn) : readonly (@raise A e).
Proof. intros st. reflexivity. Qed.

Lemma readonly_get_state : readonly get_state.
Proof. intros st. reflexivity. Qed.

Lemma readonly_bind {A B : Type} (m : M A) (k : A -> M B) :
  readonly m -> (forall a, readonly (k a)) -> readonly (bind m k).
Proof.
  intros Hm Hk st. unfold bind. specialize (Hm st).
  destruct (m st) as [[a | e] st']; cbn in Hm; subst st'.
  - apply Hk.
  - reflexivity.
Qed.

Lemma readonly_lift_res {A : Type} (r : res A) : readonly (lift_res r).
Proof. destruct r; [ apply readonly_ret | apply readonly_raise ]. Qed.

Lemma readonly_add_result field key summarize summary :
  readonly (add_result field key summarize summary).
Proof.
  unfold add_result. apply readonly_bind; [ apply readonly_get_state | ].
  intros s. destruct (field s) as [d | ]; [ | apply readonly_ret ].
  destruct (truthy (PDict d)); [ | apply readonly_ret ].
  apply readonly_bind; [ apply readonly_lift_res | ].
  intros text. apply readonly_ret.
Qed.

Lemma readonly_get_results_summary repr : readonly (get_results_summary repr).
Proof.
  unfold get_results_summary.
  repeat (apply readonly_bind;
          [ first [ apply readonly_get_state | apply readonly_add_result ]
          | intros ? ]).
  apply readonly_ret.
Qed.

(** *** What [run_workflow] returns *)

(** A valid request runs the five nodes and returns the state they leave. *)
Lemma run_valid repr self sample subject lang :
  valid sample subject ->
  exists hist,
    run_workflow repr self sample subject lang fresh
    = (Ok (final_state_of repr self sample subject lang),
       mkStore (final_state_of repr self sample subject lang)
               (run_calls self sample subject) hist)
    /\ Forall (fun s => exists k, k <= 4
                        /\ at_stage repr (run_calls self sample subject) k s) hist.
Proof.
  intros H. apply valid_iff in H. apply (run_workflow_valid repr self _ _ lang H).
Qed.

(** An invalid request returns the error state and touches nothing. *)
Lemma run_invalid repr self sample subject lang :
  valid_request sample subject = false ->
  exists msg,
    run_workflow repr self sample subject lang fresh
    = (Ok (error_state sample subject lang msg), fresh)
    /\ (msg = "Workflow execution failed: Tone sample must be at least 10 characters long"
        \/ msg = "Workflow execution failed: Topic must be at least 3 characters long").
Proof.
  unfold valid_request, run_workflow. intros H.
  destruct (tone_sample_too_short sample) eqn:Hs.
  - eexists. split; [ reflexivity | left; reflexivity ].
  - destruct (topic_too_short subject) eqn:Ht; [ | discriminate H ].
    eexists. split; [ reflexivity | right; reflexivity ].
Qed.

Lemma final_status_of_run repr self sample subject lang :
  let final := final_state_of repr self sample subject lang in
  status final
  = Some (if is_empty (errors_of final) && has_all_stages (completed_of final)
          then "completed"
          else if negb (is_empty (completed_of final)) then "partially_completed"
          else "failed")
  /\ (status final = Some "completed"
      <-> errors_of final = [] /\ forall st, In (stage_name st) (completed_of final))
  /\ (status final = Some "failed" <-> completed_of final = []).
Proof.
  cbn zeta. unfold final_state_of, completed_of, errors_of, run_calls.
  cbn [status completed_steps errors get_or].
  match goal with
  | |- context [completed_after repr 4 [?c1; ?c2; ?c3; ?c4]] =>
      destruct (final_status_cases repr c1 c2 c3 c4 eq_refl eq_refl eq_refl eq_refl)
        as (Hs & Hc & Hf)
  end.
  cbv zeta in Hs, Hc, Hf. rewrite Hs. split; [ reflexivity | ].
  rewrite <- Hs. split.
  - rewrite <- Hc. split; [ intros [= ->]; reflexivity | intros ->; reflexivity ].
  - rewrite <- Hf. split; [ intros [= ->]; reflexivity | intros ->; reflexivity ].
Qed.

(** *** One call per stage *)

Lemma same_stage_same_call (l : list call) a b :
  NoDup (map stage_of l) -> In a l -> In b l -> stage_of a = stage_of b -> a = b.
Proof.
  induction l as [ | c l IH]; cbn; intros Hnd Ha Hb Heq; [ contradiction | ].
  inversion Hnd as [ | x xs Hnotin Hrest]; subst.
  destruct Ha as [-> | Ha], Hb as [-> | Hb].
  - reflexivity.
  - exfalso. apply Hnotin. rewrite Heq. apply in_map, Hb.
  - exfalso. apply Hnotin. rewrite <- Heq. apply in_map, Ha.
  - apply IH; assumption.
Qed.


Lemma run_calls_nodup self sample subject :
  NoDup (map stage_of (run_calls self sample subject)).
Proof. rewrite run_calls_stages. apply stages_nodup. Qed.

Lemma final_lists repr self sample subject lang :
  let final := final_state_of repr self sample subject lang in
  let cl := run_calls self sample subject in
  completed_of final = flat_map (fun c => fst (contribution_of repr c)) cl
  /\ errors_of final = flat_map (fun c => snd (contribution_of repr c)) cl.
Proof.
  cbn zeta. unfold final_state_of, completed_of, errors_of.
  cbn [completed_steps errors get_or].
  rewrite completed_after_flat, errors_after_flat. split; reflexivity.
Qed.

Lemma in_completed_iff repr (l : list call) c :
  NoDup (map stage_of l) -> In c l ->
  In (stage_name (stage_of c)) (flat_map (fun c => fst (contribution_of repr c)) l)
  <-> succeeded (outcome_of c) = true.
Proof.
  intros Hnd Hc. split.
  - intros Hin. apply in_completed_flat in Hin as (c' & Hc' & Hname & Hs).
    apply stage_name_inj in Hname.
    rewrite (same_stage_same_call l c c' Hnd Hc Hc' Hname). exact Hs.
  - apply succeeded_in_completed, Hc.
Qed.




(** *** The bounds on the two lists *)

Lemma contribution_kind repr stg r :
  (contribution repr stg r = ([stage_name stg], []) /\ succeeded r = true)
  \/ (exists msg, contribution repr stg r = ([], [msg]) /\ succeeded r = false).
Proof.
  destruct r as [d | e]; cbn; unfold Dict.has.
  - destruct (Dict.get "error" d); [ right; eexists | left ]; split; reflexivity.
  - right. eexists. split; reflexivity.
Qed.

Lemma at_stage_within repr (cl : list call) k s :
  NoDup (map stage_of cl) -> length cl <= 4 ->
  at_stage repr cl k s -> within_bounds s.
Proof.
  intros Hnd Hlen [Hc He]. unfold within_bounds. rewrite Hc, He. split.
  - rewrite lists_length, length_firstn. lia.
  - apply completed_after_nodup, Hnd.
Qed.

(** *** Which stage an error entry is charged to *)

Lemma keys_set {V : Type} k (v : V) d :
  Dict.has k d = true -> Dict.keys (Dict.set k v d) = Dict.keys d.
Proof.
  unfold Dict.has, Dict.keys. induction d as [ | [k' v'] d IH]; cbn; [ discriminate | ].
  destruct (String.eqb_spec k k') as [-> | Hne]; cbn; [ reflexivity | ].
  intros H. rewrite IH by exact H. reflexivity.
Qed.

Lemma in_keys_has {V : Type} k (d : list (string * V)) :
  In k (Dict.keys d) -> Dict.has k d = true.
Proof.
  unfold Dict.has, Dict.keys. induction d as [ | [k' v'] d IH]; cbn; [ contradiction | ].
  destruct (String.eqb_spec k k') as [-> | Hne]; [ reflexivity | ].
  intros [H | H]; [ congruence | exact (IH H) ].
Qed.

Lemma mark_completed_keys steps step :
  Dict.keys (mark_completed steps step) = Dict.keys steps.
Proof.
  unfold mark_completed. destruct (Dict.has step steps) eqn:H; [ | reflexivity ].
  apply keys_set, H.
Qed.

Lemma mark_completed_all_keys l steps :
  Dict.keys (fold_left mark_completed l steps) = Dict.keys steps.
Proof.
  revert steps. induction l as [ | x l IH]; intros steps; cbn [fold_left];
    [ reflexivity | ].
  rewrite IH. apply mark_completed_keys.
Qed.

Lemma mark_current_keys current steps :
  Dict.keys (mark_current current steps) = Dict.keys steps.
Proof.
  unfold mark_current. destruct (Dict.has current steps) eqn:H; cbn; [ | reflexivity ].
  destruct (negb _); [ | reflexivity ]. apply keys_set, H.
Qed.

Lemma mark_error_keys steps error :
  Dict.keys (mark_error steps error) = Dict.keys steps.
Proof.
  unfold mark_error. destruct (find _ _) as [step | ] eqn:H; [ | reflexivity ].
  apply find_some in H as [H _]. apply keys_set, in_keys_has, H.
Qed.

Lemma mark_error_charged name steps error :
  Dict.get name (mark_error steps error)
  = if charged_to (Dict.keys steps) name error then Some "error"
    else Dict.get name steps.
Proof.
  unfold mark_error, charged_to.
  destruct (find _ _) as [step | ]; [ | reflexivity ].
  destruct (String.eqb_spec step name) as [-> | Hne].
  - apply get_set_same.
  - apply get_set_other. congruence.
Qed.

Lemma mark_error_all_charged name l steps :
  Dict.get name (fold_left mark_error l steps)
  = if existsb (charged_to (Dict.keys steps) name) l then Some "error"
    else Dict.get name steps.
Proof.
  revert steps. induction l as [ | e l IH]; intros steps; cbn [fold_left existsb];
    [ reflexivity | ].
  rewrite IH, mark_error_keys, mark_error_charged.
  destruct (charged_to (Dict.keys steps) name e); cbn [orb]; [ | reflexivity ].
  destruct (existsb _ l); reflexivity.
Qed.

Lemma stage_names_have name : In name stage_names -> Dict.has name waiting_steps = true.
Proof. apply (in_keys_has name waiting_steps). Qed.

(** ** Runs on concrete inputs *)

Example strip_example : PyStr.strip "  We ship. " = "We ship.".
Proof. reflexivity. Qed.

Example lower_example :
  PyStr.lower "Tone analysis error: API DOWN" = "tone analysis error: api down".
Proof. reflexivity. Qed.

Example contains_example :
  PyStr.contains "research" "research error: api down" = true
  /\ PyStr.contains "tone_analysis" "tone analysis error: api down" = false.
Proof. split; reflexivity. Qed.

(** A state that no node has touched yet reports four waiting stages. *)
Example unstarted_all_waiting :
  fst (get_workflow_status
         (mkStore (initial_state Examples.sample Examples.subject "en") [] []))
  = Ok waiting_steps.
Proof. reflexivity. Qed.

(** The run in which every stage succeeds, and its summary. *)
Example all_ok_run :
  exists final st,
    run_workflow Examples.ascii_repr Examples.all_ok
                 Examples.sample Examples.subject "en" fresh = (Ok final, st)
    /\ tone_sample final = Some "We ship small, we ship often."
    /\ completed_steps final
       = Some ["tone_analysis"; "research"; "content_creation"; "image_generation"]
    /\ errors final = Some []
    /\ status final = Some "completed"
    /\ fst (get_results_summary Examples.ascii_repr st)
       = Ok {| summary_status := "completed";
               summary_completed_steps := 4;
               summary_total_steps := 4;
               summary_errors := [];
               summary_results :=
                 [("tone_analysis", "formality: formal; energy: moderate");
                  ("research", "Found 1 key insights about AI in marketing");
                  ("content", "Generated 8 word post with 1 hashtags");
                  ("image", "Generated 1024x1024 image for LinkedIn post")] |}.
Proof.
  eexists _, _. split; [ vm_compute; reflexivity | ].
  repeat split; vm_compute; reflexivity.
Qed.

(** A summarizer can raise: a research result without "topic". *)
Example research_summary_raises :
  get_research_summary Examples.ascii_repr [("status", PStr "completed")]
  = Raise (KeyError "topic").
Proof. reflexivity. Qed.

(** ** The claims *)

(** C1. A run that reaches [finalize_workflow] ends with the status
    "completed" if [errors] is empty and all four stage names are in
    [completed_steps], else "partially_completed" if [completed_steps] is
    not empty, else "failed"; so the status is "completed" exactly when
    [errors] is empty and the four names appear in [completed_steps]. *)
Theorem C1_final_status repr self sample subject lang :
  valid sample subject ->
  exists final st,
    run_workflow repr self sample subject lang fresh = (Ok final, st)
    /\ current_step final = Some "completed"
    /\ status final
       = Some (if is_empty (errors_of final) && has_all_stages (completed_of final)
               then "completed"
               else if negb (is_empty (completed_of final)) then "partially_completed"
               else "failed")
    /\ (status final = Some "completed"
        <-> errors_of final = [] /\ forall stg, In (stage_name stg) (completed_of final)).
Proof.
  intros Hv. destruct (run_valid repr self sample subject lang Hv) as (hist & Hrun & _).
  destruct (final_status_of_run repr self sample subject lang) as (Hs & Hc & _).
  eexists _, _. split; [ exact Hrun | ].
  split; [ reflexivity | ]. split; assumption.
Qed.

Lemma C1_final_status_witness :
  valid Examples.sample Examples.subject
  /\ exists final st,
       run_workflow Examples.ascii_repr Examples.all_ok
                    Examples.sample Examples.subject "en" fresh = (Ok final, st)
       /\ status final = Some "completed".
Proof.
  assert (Hv : valid Examples.sample Examples.subject)
    by (unfold valid; cbn; lia).
  split; [ exact Hv | ].
  destruct (C1_final_status Examples.ascii_repr Examples.all_ok
              Examples.sample Examples.subject "en" Hv)
    as (final & st & Hrun & _ & Hs & _).
  exists final, st. split; [ exact Hrun | ].
  rewrite Hs. vm_compute in Hrun. injection Hrun as <- _. reflexivity.
Defined.

(** C2. A request whose trimmed tone sample has fewer than 10 characters,
    or whose trimmed topic has fewer than 3, makes [run_workflow] return
    (not raise) without calling any agent and without building a state for
    the graph: the returned state has the four result fields and
    [completed_steps] empty, the status "error", and exactly one message in
    [errors], that of the failed test. *)
Theorem C2_invalid_request repr self sample subject lang :
  String.length (PyStr.strip sample) < 10 \/ String.length (PyStr.strip subject) < 3 ->
  exists final st msg,
    run_workflow repr self sample subject lang fresh = (Ok final, st)
    /\ calls st = [] /\ history st = []
    /\ tone_analysis final = Some [] /\ research_data final = Some []
    /\ content_result final = Some [] /\ image_result final = Some []
    /\ completed_steps final = Some []
    /\ current_step final = Some "error"
    /\ status final = Some "error"
    /\ errors final = Some [msg]
    /\ (msg = "Workflow execution failed: Tone sample must be at least 10 characters long"
        \/ msg = "Workflow execution failed: Topic must be at least 3 characters long").
Proof.
  intros Hshort.
  assert (Hinv : valid_request sample subject = false).
  { destruct (valid_request sample subject) eqn:E; [ | reflexivity ].
    apply valid_iff in E. destruct E as [E1 E2]. lia. }
  destruct (run_invalid repr self sample subject lang Hinv) as (msg & Hrun & Hmsg).
  exists (error_state sample subject lang msg), fresh, msg.
  repeat (split; [ first [ exact Hrun | reflexivity ] | ]). exact Hmsg.
Qed.

Lemma C2_invalid_request_witness :
  (String.length (PyStr.strip "seven  ") < 10 \/ String.length (PyStr.strip "AI in marketing") < 3)
  /\ exists final st,
       run_workflow Examples.ascii_repr Examples.all_ok "seven  " "AI in marketing" "en" fresh
       = (Ok final, st)
       /\ calls st = [] /\ status final = Some "error".
Proof.
  assert (Hshort : String.length (PyStr.strip "seven  ") < 10
                   \/ String.length (PyStr.strip "AI in marketing") < 3)
    by (left; cbn; lia).
  split; [ exact Hshort | ].
  destruct (C2_invalid_request Examples.ascii_repr Examples.all_ok
              "seven  " "AI in marketing" "en" Hshort)
    as (final & st & msg & Hrun & Hcalls & _ & _ & _ & _ & _ & _ & _ & Hstatus & _).
  exists final, st. repeat split; assumption.
Defined.



(** C4, as the code has it.  The state returned by [run_workflow] has an
    empty [completed_steps] exactly when its status is "failed" or "error":
    for a valid request the status is "failed" iff [completed_steps] is
    empty, and for a rejected request the status is "error" and
    [completed_steps] is empty. *)
Theorem C4_failed_or_error repr self sample subject lang :
  exists final st,
    run_workflow repr self sample subject lang fresh = (Ok final, st)
    /\ (completed_of final = []
        <-> status final = Some "failed" \/ status final = Some "error")
    /\ (if valid_request sample subject
        then status final = Some "failed" <-> completed_of final = []
        else status final = Some "error" /\ completed_of final = []).
Proof.
  destruct (valid_request sample subject) eqn:Hreq.
  - apply valid_iff in Hreq.
    destruct (run_valid repr self sample subject lang Hreq) as (hist & Hrun & _).
    destruct (final_status_of_run repr self sample subject lang) as (Hs & _ & Hf).
    cbv zeta in Hs, Hf.
    eexists _, _. split; [ exact Hrun | ]. split; [ | exact Hf ].
    rewrite <- Hf. split; [ tauto | ].
    intros [H | H]; [ exact H | ].
    rewrite Hs in H.
    destruct (is_empty _ && has_all_stages _); [ | destruct (negb _) ];
      discriminate H.
  - destruct (run_invalid repr self sample subject lang Hreq) as (msg & Hrun & _).
    eexists _, _. split; [ exact Hrun | ]. cbn.
    split; [ split; [ right | ]; reflexivity | split; reflexivity ].
Qed.

(** C4, as stated, fails: a rejected request comes back with an empty
    [completed_steps] and the status "error", not "failed". *)
Lemma C4_counterexample :
  ~ (forall repr self sample subject lang final st,
       run_workflow repr self sample subject lang fresh = (Ok final, st) ->
       (status final = Some "failed" <-> completed_of final = [])).
Proof.
  intros H.
  specialize (H Examples.ascii_repr Examples.all_ok "seven  " "AI in marketing" "en"
                _ _ eq_refl).
  cbn in H. destruct H as [_ H]. specialize (H eq_refl). discriminate H.
Qed.

(** C5.  Where the claim fails: every agent reports "API down".  The four
    failures are recorded in [errors] in the documented form, yet
    [get_workflow_status] marks only "research" as "error"; the keys
    "tone_analysis", "content_creation" and "image_generation" are written
    with an underscore and do not occur in "tone analysis error: ...",
    "content creation error: ..." and "image generation error: ...". *)
Theorem C5_underscore_names_unmatched :
  exists final st,
    run_workflow Examples.ascii_repr Examples.all_down
                 Examples.sample Examples.subject "en" fresh = (Ok final, st)
    /\ errors final
       = Some ["Tone analysis error: API down"; "Research error: API down";
               "Content creation error: API down"; "Image generation error: API down"]
    /\ fst (get_workflow_status st)
       = Ok [("tone_analysis", "waiting"); ("research", "error");
             ("content_creation", "waiting"); ("image_generation", "waiting")].
Proof.
  eexists _, _. split; [ vm_compute; reflexivity | ].
  split; vm_compute; reflexivity.
Qed.




(** C7. Whatever the request, at every write to the state during
    [run_workflow] and in the state it returns, [completed_steps] and
    [errors] hold at most four entries together and [completed_steps] has
    no duplicate; no stage is called twice; [completed_steps] holds the
    names of the stages whose call succeeded, and each call adds either
    its stage name to [completed_steps] or one message to [errors], never
    both and never neither (the only other entry of [errors] is the message
    of a rejected request, for which no stage is called). *)
Theorem C7_lists_invariant repr self sample subject lang :
  exists final st,
    run_workflow repr self sample subject lang fresh = (Ok final, st)
    /\ within_bounds final
    /\ Forall within_bounds (history st)
    /\ NoDup (map stage_of (calls st))
    /\ completed_of final = flat_map (fun c => fst (contribution_of repr c)) (calls st)
    /\ (errors_of final = flat_map (fun c => snd (contribution_of repr c)) (calls st)
        \/ (calls st = [] /\ exists msg, errors_of final = [msg]))
    /\ (forall c, In c (calls st) ->
          (contribution_of repr c = ([stage_name (stage_of c)], [])
           /\ succeeded (outcome_of c) = true)
          \/ (exists msg, contribution_of repr c = ([], [msg])
                          /\ succeeded (outcome_of c) = false)).
Proof.
  destruct (valid_request sample subject) eqn:Hreq.
  - apply valid_iff in Hreq.
    destruct (run_valid repr self sample subject lang Hreq) as (hist & Hrun & Hhist).
    pose proof (run_calls_nodup self sample subject) as Hnd.
    destruct (final_lists repr self sample subject lang) as [Hcs Hes].
    cbv zeta in Hcs, Hes.
    eexists _, _. split; [ exact Hrun | ]. cbn [calls history].
    split; [ | split; [ | split; [ exact Hnd | split; [ exact Hcs | split ] ] ] ].
    + apply (at_stage_within repr (run_calls self sample subject) 4);
        [ exact Hnd | cbn; lia | split; reflexivity ].
    + eapply Forall_impl; [ | exact Hhist ].
      intros s (k & _ & Hat).
      apply (at_stage_within repr (run_calls self sample subject) k);
        [ exact Hnd | cbn; lia | exact Hat ].
    + left. exact Hes.
    + intros c _. apply contribution_kind.
  - destruct (run_invalid repr self sample subject lang Hreq) as (msg & Hrun & _).
    eexists _, _. split; [ exact Hrun | ]. cbn.
    split; [ split; [ cbn; lia | constructor ] | ].
    split; [ constructor | ]. split; [ constructor | ]. split; [ reflexivity | ].
    split; [ right; split; [ reflexivity | exists msg; reflexivity ] | ].
    intros c [].
Qed.

(** C8. For a valid request the state returned by [run_workflow] has
    [current_step] "completed" and a status among "completed",
    "partially_completed" and "failed"; it is neither "starting" nor
    "working". *)
Theorem C8_terminal_state repr self sample subject lang :
  valid sample subject ->
  exists final st,
    run_workflow repr self sample subject lang fresh = (Ok final, st)
    /\ current_step final = Some "completed"
    /\ (status final = Some "completed"
        \/ status final = Some "partially_completed"
        \/ status final = Some "failed")
    /\ status final <> Some "starting"
    /\ status final <> Some "working".
Proof.
  intros Hv. destruct (run_valid repr self sample subject lang Hv) as (hist & Hrun & _).
  destruct (final_status_of_run repr self sample subject lang) as (Hs & _).
  cbv zeta in Hs.
  eexists _, _. split; [ exact Hrun | ]. split; [ reflexivity | ].
  rewrite Hs.
  destruct (is_empty _ && has_all_stages _); [ | destruct (negb _) ];
    (split; [ tauto | split; discriminate ]).
Qed.

Lemma C8_terminal_state_witness :
  valid Examples.sample Examples.subject
  /\ exists final st,
       run_workflow Examples.ascii_repr Examples.content_raises
                    Examples.sample Examples.subject "en" fresh = (Ok final, st)
       /\ current_step final = Some "completed"
       /\ status final <> Some "working".
Proof.
  assert (Hv : valid Examples.sample Examples.subject)
    by (unfold valid; cbn; lia).
  split; [ exact Hv | ].
  destruct (C8_terminal_state Examples.ascii_repr Examples.content_raises
              Examples.sample Examples.subject "en" Hv)
    as (final & st & Hrun & Hcur & _ & _ & Hw).
  exists final, st. repeat split; assumption.
Defined.

(** C9. [get_results_summary] only reads: whether it returns a summary or
    raises, it leaves the store as it found it, and a second call on the
    same state gives the same result as the first.  [get_workflow_status]
    leaves the store unchanged as well, and always returns. *)
Theorem C9_reporter_reads_only repr (st : store) :
  exists result,
    get_results_summary repr st = (result, st)
    /\ get_results_summary repr (snd (get_results_summary repr st)) = (result, st)
    /\ exists steps, get_workflow_status st = (Ok steps, st).
Proof.
  pose proof (readonly_get_results_summary repr st) as Hro.
  destruct (get_results_summary repr st) as [result st'] eqn:Hrun.
  cbn in Hro. subst st'. exists result.
  split; [ reflexivity | ]. split; [ exact Hrun | ].
  eexists. apply get_workflow_status_run.
Qed.



(** ** Further properties *)

(** *** The status reporter in closed form *)

Lemma mark_completed_other name steps step :
  name <> step -> Dict.get name (mark_completed steps step) = Dict.get name steps.
Proof.
  intros Hne. unfold mark_completed. destruct (Dict.has step steps); [ | reflexivity ].
  apply get_set_other, Hne.
Qed.

Lemma mark_completed_all_other name l steps :
  ~ In name l ->
  Dict.get name (fold_left mark_completed l steps) = Dict.get name steps.
Proof.
  revert steps. induction l as [ | x l IH]; intros steps Hnot; cbn [fold_left];
    [ reflexivity | ].
  rewrite IH by (intros H; apply Hnot; right; exact H).
  apply mark_completed_other. intros ->. apply Hnot. left. reflexivity.
Qed.

Lemma in_existsb_eqb name (l : list string) :
  existsb (String.eqb name) l = true <-> In name l.
Proof.
  rewrite existsb_exists. split.
  - intros (x & Hx & Heq). apply String.eqb_eq in Heq. subst x. exact Hx.
  - intros H. exists name. split; [ exact H | apply String.eqb_refl ].
Qed.

Lemma mark_current_waiting name current steps :
  Dict.get name steps = Some "waiting" ->
  Dict.get name (mark_current current steps)
  = Some (if String.eqb name current then "working" else "waiting").
Proof.
  intros H. unfold mark_current.
  destruct (String.eqb_spec name current) as [<- | Hne].
  - unfold Dict.has. rewrite H. cbn. apply get_set_same.
  - destruct (_ && _); [ | exact H ].
    rewrite get_set_other by exact Hne. exact H.
Qed.

Lemma waiting_steps_get name :
  In name stage_names -> Dict.get name waiting_steps = Some "waiting".
Proof.
  cbn. intros [<- | [<- | [<- | [<- | []]]]]; reflexivity.
Qed.

Lemma reporter_closed_form (st : store) (name : string) :
  In name stage_names ->
  exists steps,
    get_workflow_status st = (Ok steps, st)
    /\ Dict.keys steps = stage_names
    /\ Dict.get name steps
       = Some (if existsb (charged_to stage_names name) (errors_of (state st))
               then "error"
               else if existsb (String.eqb name) (completed_of (state st))
               then "completed"
               else if String.eqb name (get_or (current_step (state st)) "")
               then "working"
               else "waiting").
Proof.
  intros Hname. eexists. split; [ apply get_workflow_status_run | ]. split.
  - clear Hname.
    induction (errors_of (state st)) as [ | e l IH] using rev_ind; cbn [fold_left].
    + rewrite mark_current_keys, mark_completed_all_keys. reflexivity.
    + rewrite fold_left_app. cbn [fold_left]. rewrite mark_error_keys. exact IH.
  - rewrite mark_error_all_charged, mark_current_keys, mark_completed_all_keys.
    change (Dict.keys waiting_steps) with stage_names.
    destruct (existsb (charged_to stage_names name) _); [ reflexivity | ].
    destruct (existsb (String.eqb name) _) eqn:Hdone.
    + apply in_existsb_eqb in Hdone.
      apply mark_current_keeps, mark_completed_all;
        [ exact Hdone | apply stage_names_have, Hname ].
    + apply mark_current_waiting.
      rewrite mark_completed_all_other; [ apply waiting_steps_get, Hname | ].
      intros Hin. apply in_existsb_eqb in Hin. congruence.
Qed.


(** X1. [get_workflow_status] in closed form.  The result has the four
    stage names as keys, in order, and a stage is labelled "error" if some
    entry of [errors] is charged to it, else "completed" if it is in
    [completed_steps], else "working" if it is [current_step], else
    "waiting". *)
Theorem X1_status_closed_form (st : store) (name : string) :
  In name stage_names ->
  exists steps,
    get_workflow_status st = (Ok steps, st)
    /\ Dict.keys steps = stage_names
    /\ Dict.get name steps
       = Some (if existsb (charged_to stage_names name) (errors_of (state st))
               then "error"
               else if existsb (String.eqb name) (completed_of (state st))
               then "completed"
               else if String.eqb name (get_or (current_step (state st)) "")
               then "working"
               else "waiting").
Proof. apply reporter_closed_form. Qed.

Lemma X1_status_closed_form_witness :
  In "content_creation" stage_names
  /\ exists steps,
       fst (get_workflow_status
              (mkStore (set_current_step "content_creation"
                          (set_completed_steps ["tone_analysis"; "research"]
                             (initial_state Examples.sample Examples.subject "en")))
                       [] []))
       = Ok steps
       /\ Dict.get "content_creation" steps = Some "working".
Proof.
  assert (H : In "content_creation" stage_names) by (cbn; auto).
  split; [ exact H | ].
  destruct (X1_status_closed_form
              (mkStore (set_current_step "content_creation"
                          (set_completed_steps ["tone_analysis"; "research"]
                             (initial_state Examples.sample Examples.subject "en")))
                       [] []) "content_creation" H)
    as (steps & Hrun & _ & Hget).
  exists steps. split; [ rewrite Hrun; reflexivity | ]. rewrite Hget. reflexivity.
Defined.

(** *** Error entries and the stage keys *)

Lemma lower_app a b : PyStr.lower (a ++ b) = (PyStr.lower a ++ PyStr.lower b)%string.
Proof. induction a as [ | c a IH]; cbn; [ reflexivity | rewrite IH; reflexivity ]. Qed.

Lemma node_prefix_transparent stg key msg :
  stg <> Research -> In key stage_names ->
  PyStr.contains key (PyStr.lower (stage_label stg ++ " error: " ++ msg))
  = PyStr.contains key (PyStr.lower msg)
  /\ PyStr.contains key (PyStr.lower (stage_label stg ++ " failed: " ++ msg))
     = PyStr.contains key (PyStr.lower msg).
Proof.
  intros Hstg Hkey. rewrite !lower_app.
  destruct stg; [ | contradiction | | ];
    cbn in Hkey; destruct Hkey as [<- | [<- | [<- | [<- | []]]]];
    split; reflexivity.
Qed.

Lemma charged_to_ext name e1 e2 :
  (forall key, In key stage_names ->
     PyStr.contains key (PyStr.lower e1) = PyStr.contains key (PyStr.lower e2)) ->
  charged_to stage_names name e1 = charged_to stage_names name e2.
Proof.
  intros H. unfold charged_to. cbn [stage_names map stage_name find].
  rewrite !(H _) by (cbn; auto 6). reflexivity.
Qed.

(** X2. The prefix that the tone, content and image nodes put in front of
    a failure ("Tone analysis error: ", "Content creation failed: ", ...)
    matches no stage key, not even across its border with the message:
    such an entry is charged to a stage exactly as the bare message would
    be. *)
Theorem X2_node_prefix_matches_no_key (stg : stage) (name msg : string) :
  stg <> Research ->
  charged_to stage_names name (stage_label stg ++ " error: " ++ msg)
  = charged_to stage_names name msg
  /\ charged_to stage_names name (stage_label stg ++ " failed: " ++ msg)
     = charged_to stage_names name msg.
Proof.
  intros Hstg. split; apply charged_to_ext; intros key Hkey;
    apply (node_prefix_transparent stg key msg Hstg Hkey).
Qed.

Lemma X2_node_prefix_matches_no_key_witness :
  Image <> Research
  /\ charged_to stage_names "image_generation" "Image generation error: API down" = false.
Proof.
  assert (H : Image <> Research) by discriminate.
  split; [ exact H | ].
  change "Image generation error: API down"
    with (stage_label Image ++ " error: " ++ "API down")%string.
  rewrite (proj1 (X2_node_prefix_matches_no_key Image "image_generation" "API down" H)).
  reflexivity.
Defined.

Lemma research_prefix_charged msg :
  PyStr.contains "tone_analysis" (PyStr.lower msg) = false ->
  charged_to stage_names "research" ("Research error: " ++ msg) = true
  /\ charged_to stage_names "research" ("Research failed: " ++ msg) = true.
Proof.
  intros Hno. unfold charged_to. cbn [stage_names map stage_name find].
  rewrite !lower_app. cbn. rewrite Hno. split; reflexivity.
Qed.

(** X3. A research failure is reported: if [errors] holds
    "Research error: <msg>" or "Research failed: <msg>" and the message
    does not contain "tone_analysis" (in any letter case), then
    [get_workflow_status] labels "research" as "error". *)
Theorem X3_research_failure_marked (st : store) (msg : string) :
  In ("Research error: " ++ msg)%string (errors_of (state st))
  \/ In ("Research failed: " ++ msg)%string (errors_of (state st)) ->
  PyStr.contains "tone_analysis" (PyStr.lower msg) = false ->
  exists steps,
    get_workflow_status st = (Ok steps, st)
    /\ Dict.get "research" steps = Some "error".
Proof.
  intros Hin Hno.
  destruct (reporter_closed_form st "research") as (steps & Hrun & _ & Hget);
    [ cbn; auto | ].
  exists steps. split; [ exact Hrun | ]. rewrite Hget.
  destruct (research_prefix_charged msg Hno) as [H1 H2].
  replace (existsb (charged_to stage_names "research") (errors_of (state st)))
    with true; [ reflexivity | ].
  symmetry. apply existsb_exists.
  destruct Hin as [Hin | Hin]; eexists; (split; [ exact Hin | assumption ]).
Qed.

Lemma X3_research_failure_marked_witness :
  (In ("Research error: " ++ "API down")%string
      (errors_of (state (snd (run_workflow Examples.ascii_repr Examples.all_down
                                 Examples.sample Examples.subject "en" fresh))))
   \/ In ("Research failed: " ++ "API down")%string
         (errors_of (state (snd (run_workflow Examples.ascii_repr Examples.all_down
                                    Examples.sample Examples.subject "en" fresh)))))
  /\ PyStr.contains "tone_analysis" (PyStr.lower "API down") = false
  /\ exists steps,
       fst (get_workflow_status
              (snd (run_workflow Examples.ascii_repr Examples.all_down
                      Examples.sample Examples.subject "en" fresh)))
       = Ok steps
       /\ Dict.get "research" steps = Some "error".
Proof.
  set (st := snd (run_workflow Examples.ascii_repr Examples.all_down
                    Examples.sample Examples.subject "en" fresh)).
  assert (H1 : In ("Research error: " ++ "API down")%string (errors_of (state st))
               \/ In ("Research failed: " ++ "API down")%string (errors_of (state st)))
    by (left; vm_compute; auto).
  assert (H2 : PyStr.contains "tone_analysis" (PyStr.lower "API down") = false)
    by reflexivity.
  split; [ exact H1 | ]. split; [ exact H2 | ].
  destruct (X3_research_failure_marked st "API down" H1 H2) as (steps & Hrun & Hget).
  exists steps. split; [ rewrite Hrun; reflexivity | exact Hget ].
Defined.

(** *** The run, seen from the outcomes of the calls *)





Lemma final_counts repr self sample subject lang :
  let final := final_state_of repr self sample subject lang in
  length (completed_of final) + length (errors_of final) = 4
  /\ status final = Some (final_status (completed_of final) (errors_of final)).
Proof.
  cbn zeta. split; [ | reflexivity ].
  unfold final_state_of, completed_of, errors_of. cbn [completed_steps errors get_or].
  rewrite lists_length. reflexivity.
Qed.





(** *** The summary of a run *)

Lemma bind_inv {A B : Type} (m : M A) (k : A -> M B) st b st' :
  bind m k st = (Ok b, st') ->
  exists a st1, m st = (Ok a, st1) /\ k a st1 = (Ok b, st').
Proof.
  unfold bind. destruct (m st) as [[a | e] st1]; intros H; [ | discriminate H ].
  exists a, st1. split; [ reflexivity | exact H ].
Qed.

Lemma add_result_ok field key summarize summary st summary' st' :
  add_result field key summarize summary st = (Ok summary', st') ->
  st' = st
  /\ summary_status summary' = summary_status summary
  /\ summary_completed_steps summary' = summary_completed_steps summary
  /\ summary_total_steps summary' = summary_total_steps summary
  /\ summary_errors summary' = summary_errors summary
  /\ (if truthy (PDict (get_or (field (state st)) []))
      then exists text, summary_results summary'
                        = Dict.set key text (summary_results summary)
      else summary_results summary' = summary_results summary).
Proof.
  unfold add_result, bind, get_state, ret, lift_res, raise.
  destruct (field (state st)) as [[ | p d] | ]; cbn.
  - intros [= <- <-]. repeat split; reflexivity.
  - destruct (summarize (p :: d)) as [text | e]; cbn; intros H; [ | discriminate H ].
    injection H as <- <-. repeat split; try reflexivity. exists text. reflexivity.
  - intros [= <- <-]. repeat split; reflexivity.
Qed.

Lemma has_set_same {V : Type} k (v : V) d : Dict.has k (Dict.set k v d) = true.
Proof. unfold Dict.has. rewrite get_set_same. reflexivity. Qed.

Lemma has_set_other {V : Type} k k' (v : V) d :
  k <> k' -> Dict.has k (Dict.set k' v d) = Dict.has k d.
Proof. intros H. unfold Dict.has. rewrite get_set_other by exact H. reflexivity. Qed.

Lemma summary_ok repr st summary st' :
  get_results_summary repr st = (Ok summary, st') ->
  let s := state st in
  st' = st
  /\ summary_status summary = get_or (status s) "unknown"
  /\ summary_completed_steps summary = length (completed_of s)
  /\ summary_total_steps summary = 4
  /\ summary_errors summary = errors_of s
  /\ Dict.has "tone_analysis" (summary_results summary)
     = truthy (PDict (get_or (tone_analysis s) []))
  /\ Dict.has "research" (summary_results summary)
     = truthy (PDict (get_or (research_data s) []))
  /\ Dict.has "content" (summary_results summary)
     = truthy (PDict (get_or (content_result s) []))
  /\ Dict.has "image" (summary_results summary)
     = truthy (PDict (get_or (image_result s) [])).
Proof.
  unfold get_results_summary. intros H.
  apply bind_inv in H as (s0 & st0 & H0 & H). injection H0 as <- <-.
  apply bind_inv in H as (s1 & st1 & H1 & H).
  apply bind_inv in H as (s2 & st2 & H2 & H).
  apply bind_inv in H as (s3 & st3 & H3 & H).
  apply bind_inv in H as (s4 & st4 & H4 & H).
  injection H as <- <-.
  apply add_result_ok in H1 as (-> & A1 & B1 & C1 & D1 & R1).
  apply add_result_ok in H2 as (-> & A2 & B2 & C2 & D2 & R2).
  apply add_result_ok in H3 as (-> & A3 & B3 & C3 & D3 & R3).
  apply add_result_ok in H4 as (-> & A4 & B4 & C4 & D4 & R4).
  cbn zeta. cbn [summary_status summary_completed_steps summary_total_steps
                 summary_errors summary_results] in *.
  split; [ reflexivity | ].
  split; [ congruence | ]. split; [ unfold completed_of; congruence | ].
  split; [ congruence | ]. split; [ unfold errors_of; congruence | ].
  destruct (truthy (PDict (get_or (tone_analysis (state st)) [])));
  destruct (truthy (PDict (get_or (research_data (state st)) [])));
  destruct (truthy (PDict (get_or (content_result (state st)) [])));
  destruct (truthy (PDict (get_or (image_result (state st)) [])));
  repeat match goal with
         | H : exists _, _ |- _ => destruct H as [? H]
         end;
  rewrite R4, R3, R2, R1;
  repeat split;
  repeat first [ rewrite has_set_same | rewrite has_set_other by discriminate ];
  reflexivity.
Qed.

(** X6. The summary follows the state: whenever [get_results_summary]
    returns, it reports the status, the number of completed steps and the
    errors of the state, 4 as the total, and a result entry for exactly
    the stages whose result field is a non-empty dictionary. *)
Theorem X6_summary_follows_state repr (st : store) summary st' :
  get_results_summary repr st = (Ok summary, st') ->
  summary_status summary = get_or (status (state st)) "unknown"
  /\ summary_completed_steps summary = length (completed_of (state st))
  /\ summary_total_steps summary = 4
  /\ summary_errors summary = errors_of (state st)
  /\ Dict.has "tone_analysis" (summary_results summary)
     = truthy (PDict (get_or (tone_analysis (state st)) []))
  /\ Dict.has "research" (summary_results summary)
     = truthy (PDict (get_or (research_data (state st)) []))
  /\ Dict.has "content" (summary_results summary)
     = truthy (PDict (get_or (content_result (state st)) []))
  /\ Dict.has "image" (summary_results summary)
     = truthy (PDict (get_or (image_result (state st)) [])).
Proof. intros H. apply summary_ok in H. cbn zeta in H. tauto. Qed.

Lemma X6_summary_follows_state_witness :
  exists summary st,
    get_results_summary Examples.ascii_repr
      (snd (run_workflow Examples.ascii_repr Examples.content_raises
              Examples.sample Examples.subject "en" fresh))
    = (Ok summary, st)
    /\ summary_completed_steps summary = 3
    /\ Dict.has "content" (summary_results summary) = false.
Proof.
  set (st := snd (run_workflow Examples.ascii_repr Examples.content_raises
                    Examples.sample Examples.subject "en" fresh)).
  destruct (get_results_summary Examples.ascii_repr st) as [[summary | e] st'] eqn:Hrun;
    [ | vm_compute in Hrun; discriminate Hrun ].
  exists summary, st'. split; [ reflexivity | ].
  destruct (X6_summary_follows_state Examples.ascii_repr st summary st' Hrun)
    as (_ & Hc & _ & _ & _ & _ & Hcontent & _).
  rewrite Hc, Hcontent. split; reflexivity.
Defined.

Lemma final_status_completed_iff cs es :
  length cs + length es = 4 ->
  final_status cs es = "completed" <-> length cs = 4.
Proof.
  unfold final_status. generalize (length cs) (length es). intros a b Hsum.
  destruct b; destruct a as [ | [ | [ | [ | [ | a]]]]]; cbn;
    split; intros H; try discriminate H; try reflexivity; lia.
Qed.

(** X7. The summary of a run is consistent: on the state returned by
    [run_workflow], for any request, a summary that is returned counts
    completed steps and errors that together do not exceed the total, and
    it says "completed" exactly when the completed steps reach the total. *)
Theorem X7_summary_of_run repr self sample subject lang :
  exists final st,
    run_workflow repr self sample subject lang fresh = (Ok final, st)
    /\ forall summary st',
         get_results_summary repr (mkStore final (calls st) (history st))
         = (Ok summary, st') ->
         summary_completed_steps summary + length (summary_errors summary)
         <= summary_total_steps summary
         /\ (summary_status summary = "completed"
             <-> summary_completed_steps summary = summary_total_steps summary).
Proof.
  destruct (valid_request sample subject) eqn:Hreq.
  - apply valid_iff in Hreq.
    destruct (run_valid repr self sample subject lang Hreq) as (hist & Hrun & _).
    destruct (final_counts repr self sample subject lang) as [Hsum Hst].
    cbv zeta in Hsum, Hst.
    eexists _, _. split; [ exact Hrun | ].
    intros summary st' H. apply summary_ok in H.
    cbn zeta in H. cbn [state] in H.
    destruct H as (_ & Hs & Hc & Ht & He & _).
    rewrite Hs, Hc, Ht, He, Hst. cbn [get_or]. split; [ lia | ].
    apply final_status_completed_iff, Hsum.
  - destruct (run_invalid repr self sample subject lang Hreq) as (msg & Hrun & _).
    eexists _, _. split; [ exact Hrun | ].
    intros summary st' H. apply summary_ok in H.
    cbn zeta in H. cbn [state] in H.
    destruct H as (_ & Hs & Hc & Ht & He & _).
    rewrite Hs, Hc, Ht, He. cbn. split; [ lia | ].
    split; intros E; discriminate E.
Qed.

(** *** Substrings and trimming *)

Lemma contains_unfold needle hay :
  PyStr.contains needle hay
  = String.prefix needle hay
    || match hay with
       | EmptyString => false
       | String _ r => PyStr.contains needle r
       end.
Proof. destruct hay; reflexivity. Qed.

Lemma prefix_app_contains a b t :
  String.prefix (a ++ b) t = true -> PyStr.contains b t = true.
Proof.
  revert t. induction a as [ | c a IH]; intros t H.
  - rewrite contains_unfold. change (String.prefix b t = true) in H.
    rewrite H. reflexivity.
  - destruct t as [ | c' t]; [ discriminate H | ].
    change (String.prefix (String c (a ++ b)) (String c' t) = true) in H.
    cbn [String.prefix] in H.
    destruct (ascii_dec c c'); [ | discriminate H ].
    rewrite contains_unfold, (IH t H). apply orb_true_r.
Qed.

Lemma contains_app_suffix a b t :
  PyStr.contains (a ++ b) t = true -> PyStr.contains b t = true.
Proof.
  induction t as [ | c t IH]; rewrite (contains_unfold (a ++ b)); intros H.
  - rewrite orb_false_r in H. apply prefix_app_contains in H. exact H.
  - apply orb_true_iff in H as [H | H].
    + apply prefix_app_contains in H. exact H.
    + rewrite contains_unfold, (IH H). apply orb_true_r.
Qed.

Lemma rstrip_cons c r :
  PyStr.rstrip (String c r)
  = match PyStr.rstrip r with
    | EmptyString => if PyStr.is_space c then EmptyString else String c EmptyString
    | String c' r' => String c (String c' r')
    end.
Proof. reflexivity. Qed.

Lemma rstrip_idem s : PyStr.rstrip (PyStr.rstrip s) = PyStr.rstrip s.
Proof.
  induction s as [ | c r IH]; [ reflexivity | ].
  rewrite rstrip_cons.
  destruct (PyStr.rstrip r) as [ | c' r'] eqn:Er.
  - destruct (PyStr.is_space c) eqn:Ec; [ reflexivity | ].
    rewrite rstrip_cons. cbn [PyStr.rstrip]. rewrite Ec. reflexivity.
  - rewrite rstrip_cons, IH. reflexivity.
Qed.

Lemma lstrip_head s :
  PyStr.lstrip s = EmptyString
  \/ exists c r, PyStr.lstrip s = String c r /\ PyStr.is_space c = false.
Proof.
  induction s as [ | c r IH]; cbn; [ left; reflexivity | ].
  destruct (PyStr.is_space c) eqn:Ec; [ exact IH | ].
  right. exists c, r. split; [ reflexivity | exact Ec ].
Qed.

Lemma strip_idem s : PyStr.strip (PyStr.strip s) = PyStr.strip s.
Proof.
  unfold PyStr.strip.
  destruct (lstrip_head s) as [E | (c & r & E & Ec)]; rewrite E.
  - reflexivity.
  - assert (H : exists r', PyStr.rstrip (String c r) = String c r').
    { rewrite rstrip_cons. destruct (PyStr.rstrip r); [ rewrite Ec | ];
        eexists; reflexivity. }
    destruct H as [r' H]. rewrite H. cbn [PyStr.lstrip]. rewrite Ec, <- H.
    apply rstrip_idem.
Qed.

Lemma too_short_strip s :
  tone_sample_too_short (PyStr.strip s) = tone_sample_too_short s.
Proof.
  unfold tone_sample_too_short. rewrite strip_idem.
  destruct (Nat.ltb_spec (String.length (PyStr.strip s)) 10) as [Hlt | Hge].
  - rewrite !orb_true_r. reflexivity.
  - rewrite !orb_false_r.
    rewrite (truthy_length s) by lia.
    destruct (PyStr.strip s) eqn:E; [ cbn in Hge; lia | reflexivity ].
Qed.

(** *** The tone agent *)

Lemma characteristics_get text :
  let d := _extract_characteristics text in
  let low := PyStr.lower text in
  Dict.keys d = ["formality"; "energy"; "expertise"; "personality"]
  /\ Dict.get "formality" d
     = Some (PStr (if contains_any ["formal"; "professional"; "business"] low
                   then "formal"
                   else if contains_any ["casual"; "informal"; "conversational"] low
                   then "casual" else "unknown"))
  /\ Dict.get "energy" d
     = Some (PStr (if contains_any ["energetic"; "enthusiastic"; "excited"] low
                   then "high"
                   else if contains_any ["calm"; "measured"; "steady"] low
                   then "moderate" else "unknown"))
  /\ Dict.get "expertise" d
     = Some (PStr (if contains_any ["expert"; "technical"; "authoritative"] low
                   then "high"
                   else if contains_any ["beginner"; "learning"; "accessible"] low
                   then "accessible" else "unknown"))
  /\ Dict.get "personality" d = Some (PStr "unknown").
Proof.
  cbv zeta. unfold _extract_characteristics.
  destruct (contains_any ["formal"; "professional"; "business"] _);
    [ | destruct (contains_any ["casual"; "informal"; "conversational"] _) ];
  (destruct (contains_any ["energetic"; "enthusiastic"; "excited"] _);
    [ | destruct (contains_any ["calm"; "measured"; "steady"] _) ]);
  (destruct (contains_any ["expert"; "technical"; "authoritative"] _);
    [ | destruct (contains_any ["beginner"; "learning"; "accessible"] _) ]);
  repeat split; reflexivity.
Qed.

(** X8. The keyword "informal" cannot make a text casual: "formal" occurs
    in it and is tested first, so a text that contains "informal" (in any
    letter case) gets the formality "formal"; the formality is "casual"
    only for a text with "casual" or "conversational" and none of
    "formal", "professional", "business". *)
Theorem X8_informal_reads_formal (text : string) :
  let low := PyStr.lower text in
  (PyStr.contains "informal" low = true ->
   Dict.get "formality" (_extract_characteristics text) = Some (PStr "formal"))
  /\ Dict.get "formality" (_extract_characteristics text)
     = Some (PStr (if contains_any ["formal"; "professional"; "business"] low
                   then "formal"
                   else if contains_any ["casual"; "conversational"] low
                   then "casual" else "unknown")).
Proof.
  cbv zeta. destruct (characteristics_get text) as (_ & Hf & _). cbv zeta in Hf.
  assert (Hsub : PyStr.contains "informal" (PyStr.lower text) = true ->
                 PyStr.contains "formal" (PyStr.lower text) = true)
    by apply (contains_app_suffix "in" "formal").
  rewrite Hf. split.
  - intros H. unfold contains_any at 1. cbn [existsb]. rewrite (Hsub H). reflexivity.
  - destruct (contains_any ["formal"; "professional"; "business"] _) eqn:E1;
      [ reflexivity | ].
    unfold contains_any in *. cbn [existsb] in *.
    destruct (PyStr.contains "informal" (PyStr.lower text)) eqn:E2; [ | reflexivity ].
    rewrite (Hsub eq_refl) in E1. discriminate E1.
Qed.

(** X9. The characteristics always have the four keys "formality",
    "energy", "expertise", "personality", in this order, and "personality"
    is "unknown" for every text. *)
Theorem X9_characteristics_shape (text : string) :
  Dict.keys (_extract_characteristics text)
  = ["formality"; "energy"; "expertise"; "personality"]
  /\ Dict.get "personality" (_extract_characteristics text) = Some (PStr "unknown").
Proof.
  destruct (characteristics_get text) as (Hk & _ & _ & _ & Hp). split; assumption.
Qed.

(** X10. The tone agent never raises.  Its result has an "error" key
    exactly when the sample is too short or the call to the language model
    raised; a sample that is too short gives the validation message
    whatever the model would answer, and the result always carries the
    sample it was given. *)
Theorem X10_tone_agent_result repr (chain_run : string -> res string) (sample : string) :
  exists d,
    tone_agent_analyze_tone repr chain_run sample = Returned d
    /\ (Dict.has "error" d = true
        <-> tone_sample_too_short sample = true \/ exists e, chain_run sample = Raise e)
    /\ (tone_sample_too_short sample = true ->
        Dict.get "error" d
        = Some (PStr "Tone sample must be at least 10 characters long"))
    /\ Dict.get "tone_sample" d = Some (PStr sample).
Proof.
  unfold tone_agent_analyze_tone.
  destruct (tone_sample_too_short sample) eqn:Hs.
  - eexists. split; [ reflexivity | ]. repeat split; auto.
  - destruct (chain_run sample) as [text | e] eqn:Hc.
    + eexists. split; [ reflexivity | ]. split; [ | split; [ discriminate | reflexivity ] ].
      cbn. split; [ discriminate | ].
      intros [H | [e H]]; discriminate H.
    + eexists. split; [ reflexivity | ]. split; [ | split; [ discriminate | reflexivity ] ].
      cbn. split; [ intros _; right; exists e; reflexivity | reflexivity ].
Qed.

Lemma X10_tone_agent_result_witness :
  tone_sample_too_short "Too short" = true
  /\ exists d,
       tone_agent_analyze_tone Examples.ascii_repr (fun _ => Ok "Formal.") "Too short"
       = Returned d
       /\ Dict.get "error" d
          = Some (PStr "Tone sample must be at least 10 characters long").
Proof.
  assert (H : tone_sample_too_short "Too short" = true) by reflexivity.
  split; [ exact H | ].
  destruct (X10_tone_agent_result Examples.ascii_repr (fun _ => Ok "Formal.") "Too short")
    as (d & Hd & _ & Herr & _).
  exists d. split; [ exact Hd | exact (Herr H) ].
Defined.

Lemma tone_agent_cases repr chain_run sample :
  tone_sample_too_short sample = false ->
  tone_agent_analyze_tone repr chain_run sample
  = match chain_run sample with
    | Ok result =>
        Returned [("raw_analysis", PStr result); ("tone_sample", PStr sample);
                  ("status", PStr "completed");
                  ("characteristics", PDict (_extract_characteristics result))]
    | Raise e =>
        Returned [("error", PStr (exn_str repr e)); ("status", PStr "error");
                  ("tone_sample", PStr sample)]
    end.
Proof.
  intros H. unfold tone_agent_analyze_tone. rewrite H.
  destruct (chain_run sample); reflexivity.
Qed.

(** X11. What the tone agent returns is always accepted by its readers:
    neither [get_tone_summary] nor the content agent's
    [_format_tone_profile] raises on it, and after a failure the profile
    handed to the content prompt is "No tone analysis available". *)
Theorem X11_tone_result_is_readable repr (chain_run : string -> res string)
    (sample : string) :
  exists d,
    tone_agent_analyze_tone repr chain_run sample = Returned d
    /\ (exists text, get_tone_summary repr d = Ok text)
    /\ (exists text, _format_tone_profile repr d = Ok text)
    /\ (Dict.has "error" d = true ->
        _format_tone_profile repr d = Ok "No tone analysis available").
Proof.
  unfold tone_agent_analyze_tone.
  destruct (tone_sample_too_short sample);
    [ | destruct (chain_run sample) as [text | e] ];
    (eexists; split; [ reflexivity | ]);
    (split; [ eexists; reflexivity | ]);
    (split; [ eexists; reflexivity | ]);
    try reflexivity; discriminate.
Qed.

Lemma contribution_messages repr stg r x :
  In x (snd (contribution repr stg r)) ->
  exists msg,
    x = (stage_label stg ++ " error: " ++ msg)%string
    \/ x = (stage_label stg ++ " failed: " ++ msg)%string.
Proof.
  destruct r as [d | e]; cbn.
  - destruct (Dict.get "error" d) as [v | ]; cbn; [ | contradiction ].
    intros [<- | []]. eexists. left. reflexivity.
  - intros [<- | []]. eexists. right. reflexivity.
Qed.

(** X12. Under the supervisor, the tone agent's own length test never
    fires: the supervisor hands it the trimmed sample, which it has just
    found long enough.  For a valid request the tone stage is completed
    exactly when the call to the language model returns; when that call
    raises [e], [errors] holds "Tone analysis error: <str(e)>", and no
    entry of [errors] begins with "Tone analysis failed: ", the text of
    the node's own [except] branch. *)
Theorem X12_tone_stage_under_supervisor repr self chain_run sample subject lang :
  valid sample subject ->
  exists final st,
    run_workflow repr (with_tone_agent repr self chain_run) sample subject lang fresh
    = (Ok final, st)
    /\ (In "tone_analysis" (completed_of final)
        <-> exists text, chain_run (PyStr.strip sample) = Ok text)
    /\ (forall e, chain_run (PyStr.strip sample) = Raise e ->
          In ("Tone analysis error: " ++ exn_str repr e)%string (errors_of final))
    /\ (forall msg, ~ In ("Tone analysis failed: " ++ msg)%string (errors_of final)).
Proof.
  intros Hv.
  set (self' := with_tone_agent repr self chain_run).
  destruct (run_valid repr self' sample subject lang Hv) as (hist & Hrun & _).
  destruct (final_lists repr self' sample subject lang) as [Hcs Hes].
  cbv zeta in Hcs, Hes.
  pose proof (run_calls_nodup self' sample subject) as Hnd.
  assert (Hshort : tone_sample_too_short (PyStr.strip sample) = false).
  { rewrite too_short_strip. apply valid_iff in Hv.
    apply valid_request_tests in Hv. apply Hv. }
  pose proof (tone_agent_cases repr chain_run (PyStr.strip sample) Hshort) as Hcases.
  set (r1 := tone_agent_analyze_tone repr chain_run (PyStr.strip sample)) in *.
  assert (Hin1 : In (ToneCall (PyStr.strip sample) r1) (run_calls self' sample subject))
    by (left; reflexivity).
  eexists _, _. split; [ exact Hrun | ].
  rewrite Hcs, Hes. split; [ | split ].
  - rewrite (in_completed_iff repr _ (ToneCall (PyStr.strip sample) r1) Hnd Hin1).
    cbn [outcome_of]. rewrite Hcases.
    destruct (chain_run (PyStr.strip sample)) as [text | e]; cbn.
    + split; [ intros _; exists text; reflexivity | reflexivity ].
    + split; [ discriminate | intros [text H]; discriminate H ].
  - intros e He. apply in_flat_map.
    exists (ToneCall (PyStr.strip sample) r1). split; [ exact Hin1 | ].
    unfold contribution_of. cbn [stage_of outcome_of]. rewrite Hcases, He.
    left. reflexivity.
  - intros msg Hin. apply in_flat_map in Hin as (c & Hc & Hx).
    unfold contribution_of in Hx.
    destruct (stage_of c) eqn:Hstage.
    + assert (c = ToneCall (PyStr.strip sample) r1)
        by (apply (same_stage_same_call _ _ _ Hnd Hc Hin1); rewrite Hstage; reflexivity).
      subst c. cbn [outcome_of] in Hx. rewrite Hcases in Hx.
      destruct (chain_run (PyStr.strip sample)); cbn in Hx;
        [ contradiction | destruct Hx as [Hx | []]; discriminate Hx ].
    + apply contribution_messages in Hx as (m & [Hx | Hx]); discriminate Hx.
    + apply contribution_messages in Hx as (m & [Hx | Hx]); discriminate Hx.
    + apply contribution_messages in Hx as (m & [Hx | Hx]); discriminate Hx.
Qed.

Lemma X12_tone_stage_under_supervisor_witness :
  valid Examples.sample Examples.subject
  /\ exists final st,
       run_workflow Examples.ascii_repr
         (with_tone_agent Examples.ascii_repr Examples.all_ok
            (fun _ => Raise (Exception "rate limit")))
         Examples.sample Examples.subject "en" fresh
       = (Ok final, st)
       /\ In "Tone analysis error: rate limit" (errors_of final).
Proof.
  assert (Hv : valid Examples.sample Examples.subject)
    by (unfold valid; cbn; lia).
  split; [ exact Hv | ].
  destruct (X12_tone_stage_under_supervisor Examples.ascii_repr Examples.all_ok
              (fun _ => Raise (Exception "rate limit"))
              Examples.sample Examples.subject "en" Hv)
    as (final & st & Hrun & _ & Herr & _).
  exists final, st. split; [ exact Hrun | ].
  apply (Herr (Exception "rate limit")). reflexivity.
Defined.

(** *** The research agent *)



(** *** The content agent's formatters *)

Lemma join_items_strs i (l : list string) : join_items i (map PStr l) = Ok l.
Proof.
  revert i. induction l as [ | s l IH]; intros i; cbn; [ reflexivity | ].
  rewrite IH. reflexivity.
Qed.

Lemma joined_part_strs key label sep (d : dict) :
  (forall v, Dict.get key d = Some v -> exists l, v = PList (map PStr l)) ->
  exists part, joined_part key label sep d = Ok part.
Proof.
  intros H. unfold joined_part.
  destruct (Dict.get key d) as [v | ]; [ | eexists; reflexivity ].
  destruct (H v eq_refl) as [l ->].
  destruct (truthy _); [ | eexists; reflexivity ].
  cbn. rewrite join_items_strs. eexists. reflexivity.
Qed.

(** X14. [_format_research_data] answers "No research data available" for
    a failure dictionary, and it does not raise on a dictionary whose
    "insights" and "hashtags", where present, are lists of strings; the
    empty dictionary, the supervisor's default, gives the empty text. *)
Theorem X14_format_research_data repr (d : dict) :
  (Dict.has "error" d = true ->
   _format_research_data repr d = Ok "No research data available")
  /\ ((forall v, Dict.get "insights" d = Some v -> exists l, v = PList (map PStr l)) ->
      (forall v, Dict.get "hashtags" d = Some v -> exists l, v = PList (map PStr l)) ->
      exists text, _format_research_data repr d = Ok text)
  /\ _format_research_data repr [] = Ok "".
Proof.
  split; [ | split; [ | reflexivity ] ].
  - intros H. unfold _format_research_data. rewrite H. reflexivity.
  - intros Hi Hh. unfold _format_research_data.
    destruct (Dict.has "error" d); [ eexists; reflexivity | ].
    destruct (joined_part_strs "insights" "Key Insights: " "; " d Hi) as [p1 ->].
    destruct (joined_part_strs "hashtags" "Relevant Hashtags: " " " d Hh) as [p2 ->].
    eexists. reflexivity.
Qed.

Lemma X14_format_research_data_witness :
  (forall v, Dict.get "insights" Examples.research_ok = Some v ->
             exists l, v = PList (map PStr l))
  /\ (forall v, Dict.get "hashtags" Examples.research_ok = Some v ->
                exists l, v = PList (map PStr l))
  /\ exists text, _format_research_data Examples.ascii_repr Examples.research_ok = Ok text.
Proof.
  assert (Hi : forall v, Dict.get "insights" Examples.research_ok = Some v ->
                         exists l, v = PList (map PStr l)).
  { intros v [= <-]. exists ["1. Adoption grows #AI"]. reflexivity. }
  assert (Hh : forall v, Dict.get "hashtags" Examples.research_ok = Some v ->
                         exists l, v = PList (map PStr l)).
  { intros v [= <-]. exists ["#AI"]. reflexivity. }
  split; [ exact Hi | ]. split; [ exact Hh | ].
  exact (proj1 (proj2 (X14_format_research_data Examples.ascii_repr Examples.research_ok))
               Hi Hh).
Defined.

(** *** The content agent's clean-up of the post *)

Lemma hashtags_spaced_snoc (l : list string) x :
  hashtags_spaced l ->
  (l = [] \/ PyText.startswith (PyStr.strip x) "#" = false
   \/ PyStr.strip (last l "") = "") ->
  hashtags_spaced (l ++ [x]).
Proof.
  induction l as [ | a l IH]; intros Hl Hx; [ exact I | ].
  destruct l as [ | b l].
  - cbn. split; [ | exact I ].
    intros Hhash. destruct Hx as [Hx | [Hx | Hx]];
      [ discriminate Hx | congruence | exact Hx ].
  - destruct Hl as [Hab Hl]. split; [ exact Hab | ].
    apply IH; [ exact Hl | ].
    destruct Hx as [Hx | [Hx | Hx]]; [ discriminate Hx | auto | auto ].
Qed.

Lemma last_snoc {A : Type} (l : list A) x d : last (l ++ [x]) d = x.
Proof. apply last_last. Qed.

Lemma add_line_spaced acc line :
  hashtags_spaced acc -> hashtags_spaced (add_line acc line).
Proof.
  intros H. unfold add_line.
  destruct (PyText.startswith (PyStr.strip line) "#") eqn:Eh; cbn [andb].
  - destruct acc as [ | a acc']; cbn [is_empty negb andb]; [ exact I | ].
    destruct (String.eqb_spec (PyStr.strip (last (a :: acc') "")) "") as [Eb | Nb];
      cbn [negb].
    + apply hashtags_spaced_snoc; auto.
    + change (a :: acc' ++ [""; line]) with ((a :: acc') ++ [""; line]).
      replace ((a :: acc') ++ [""; line]) with (((a :: acc') ++ [""]) ++ [line])
        by (rewrite <- app_assoc; reflexivity).
      apply hashtags_spaced_snoc.
      * apply hashtags_spaced_snoc; [ exact H | right; left; reflexivity ].
      * right. right. rewrite last_snoc. reflexivity.
  - apply hashtags_spaced_snoc; auto.
Qed.

Lemma add_line_all_spaced l acc :
  hashtags_spaced acc -> hashtags_spaced (fold_left add_line l acc).
Proof.
  revert acc. induction l as [ | x l IH]; intros acc H; cbn [fold_left];
    [ exact H | ].
  apply IH, add_line_spaced, H.
Qed.

Lemma non_empty_lines_app a b :
  non_empty_lines (a ++ b) = non_empty_lines a ++ non_empty_lines b.
Proof. apply filter_app. Qed.

Lemma add_line_all_non_empty l acc :
  non_empty_lines (fold_left add_line l acc)
  = non_empty_lines acc ++ non_empty_lines l.
Proof.
  revert acc. induction l as [ | x l IH]; intros acc; cbn [fold_left].
  - symmetry. apply app_nil_r.
  - rewrite IH. unfold add_line.
    change (x :: l) with ([x] ++ l). rewrite (non_empty_lines_app [x] l).
    destruct (_ && _); rewrite non_empty_lines_app, <- app_assoc; reflexivity.
Qed.

(** X15. [_process_content] first squeezes runs of three or more newlines
    to two and trims the text.  If the text then contains "#", it joins,
    with newlines, the lines of that text with empty lines added and
    nothing else changed, so that no line that starts with "#" comes right
    after a line that is not blank; a text without "#" is returned as
    trimmed. *)
Theorem X15_process_content (content : string) :
  let cleaned := PyStr.strip (PyText.squeeze_newlines content) in
  let processed_lines := fold_left add_line (PyText.split PyText.newline cleaned) [] in
  if PyStr.contains "#" cleaned
  then _process_content content = PyStr.join newline_str processed_lines
       /\ hashtags_spaced processed_lines
       /\ non_empty_lines processed_lines
          = non_empty_lines (PyText.split PyText.newline cleaned)
  else _process_content content = cleaned.
Proof.
  cbv zeta. unfold _process_content.
  destruct (PyStr.contains "#" _); [ | reflexivity ].
  split; [ reflexivity | ]. split.
  - apply add_line_all_spaced. exact I.
  - apply (add_line_all_non_empty _ []).
Qed.

(** *** The reflow of long lines *)

Lemma split_not_nil sep s : PyText.split sep s <> [].
Proof.
  destruct s as [ | c r]; cbn; [ discriminate | ].
  destruct (Ascii.eqb c sep); [ discriminate | ].
  destruct (PyText.split sep r); discriminate.
Qed.

Lemma join_cons_newline (l : list string) :
  l <> [] ->
  PyStr.join newline_str (EmptyString :: l) = String PyText.newline (PyStr.join newline_str l).
Proof. destruct l; [ contradiction | reflexivity ]. Qed.

Lemma join_cons_char sep c h (t : list string) :
  PyStr.join sep (String c h :: t) = String c (PyStr.join sep (h :: t)).
Proof. destruct t; reflexivity. Qed.

Lemma join_split s :
  PyStr.join newline_str (PyText.split PyText.newline s) = s.
Proof.
  induction s as [ | c r IH]; [ reflexivity | ].
  cbn [PyText.split].
  destruct (Ascii.eqb_spec c PyText.newline) as [-> | Hne].
  - rewrite join_cons_newline by apply split_not_nil. rewrite IH. reflexivity.
  - destruct (PyText.split PyText.newline r) as [ | h t] eqn:E.
    + exfalso. exact (split_not_nil _ _ E).
    + rewrite join_cons_char, IH. reflexivity.
Qed.

Lemma reflow_untouched l acc :
  Forall (fun line => String.length line <= 100
                      \/ PyText.startswith (PyStr.strip line) "#" = true) l ->
  fold_left reflow_line l acc = acc ++ l.
Proof.
  revert acc. induction l as [ | x l IH]; intros acc H; cbn [fold_left].
  - symmetry. apply app_nil_r.
  - inversion H as [ | ? ? Hx Hl]; subst.
    rewrite IH by exact Hl.
    assert (E : reflow_line acc x = acc ++ [x]).
    { unfold reflow_line. destruct Hx as [Hx | Hx].
      - destruct (Nat.ltb_spec 100 (String.length x)); [ lia | reflexivity ].
      - rewrite Hx, andb_false_r. reflexivity. }
    rewrite E, <- app_assoc. reflexivity.
Qed.

(** X16. [optimize_for_linkedin] returns the text unchanged when each of
    its lines has at most 100 characters or starts (after trimming) with
    "#". *)
Theorem X16_short_lines_unchanged (content : string) :
  Forall (fun line => String.length line <= 100
                      \/ PyText.startswith (PyStr.strip line) "#" = true)
         (PyText.split PyText.newline content) ->
  optimize_for_linkedin content = content.
Proof.
  intros H. unfold optimize_for_linkedin.
  rewrite (reflow_untouched _ [] H). apply join_split.
Qed.

Lemma X16_short_lines_unchanged_witness :
  Forall (fun line => String.length line <= 100
                      \/ PyText.startswith (PyStr.strip line) "#" = true)
         (PyText.split PyText.newline "AI changes marketing.
#AI #Marketing")
  /\ optimize_for_linkedin "AI changes marketing.
#AI #Marketing" = "AI changes marketing.
#AI #Marketing".
Proof.
  assert (H : Forall (fun line => String.length line <= 100
                        \/ PyText.startswith (PyStr.strip line) "#" = true)
                (PyText.split PyText.newline "AI changes marketing.
#AI #Marketing"))
    by (repeat constructor; cbn; lia).
  split; [ exact H | apply (X16_short_lines_unchanged _ H) ].
Defined.

Lemma line_fits_join_one input source w :
  In source input -> In w (PyText.words source) ->
  line_fits input (PyStr.join " " [w]).
Proof.
  intros Hs Hw. right. right. exists source. split; assumption.
Qed.

Lemma wrap_words_fit input source ws out cur :
  In source input ->
  (forall w, In w ws -> In w (PyText.words source)) ->
  Forall (line_fits input) out ->
  (String.length (PyStr.join " " cur) <= 100
   \/ exists w, cur = [w] /\ In w (PyText.words source)) ->
  Forall (line_fits input) (fst (fold_left wrap_word ws (out, cur)))
  /\ line_fits input (PyStr.join " " (snd (fold_left wrap_word ws (out, cur)))).
Proof.
  intros Hsrc. revert out cur.
  induction ws as [ | w ws IH]; intros out cur Hws Hout Hcur; cbn [fold_left].
  - split; [ exact Hout | ].
    destruct Hcur as [Hcur | (w & -> & Hw)];
      [ left; exact Hcur | apply (line_fits_join_one input source); assumption ].
  - assert (Hfit : line_fits input (PyStr.join " " cur)).
    { destruct Hcur as [Hcur | (w0 & -> & Hw0)];
        [ left; exact Hcur | apply (line_fits_join_one input source); assumption ]. }
    cbn [wrap_word].
    destruct (Nat.ltb_spec 100 (String.length (PyStr.join " " (cur ++ [w]))))
      as [Hlong | Hshort].
    + apply IH.
      * intros w' Hw'. apply Hws. right. exact Hw'.
      * apply Forall_app. split; [ exact Hout | ]. constructor; [ exact Hfit | constructor ].
      * right. exists w. split; [ reflexivity | apply Hws; left; reflexivity ].
    + apply IH.
      * intros w' Hw'. apply Hws. right. exact Hw'.
      * exact Hout.
      * left. exact Hshort.
Qed.

Lemma reflow_line_fits input acc line :
  In line input ->
  Forall (line_fits input) acc ->
  Forall (line_fits input) (reflow_line acc line).
Proof.
  intros Hin Hacc. unfold reflow_line.
  destruct (Nat.ltb_spec 100 (String.length line)) as [Hlong | Hshort]; cbn [andb].
  - destruct (PyText.startswith (PyStr.strip line) "#") eqn:Eh; cbn [negb].
    + apply Forall_app. split; [ exact Hacc | ].
      constructor; [ | constructor ]. right. left. split; assumption.
    + destruct (wrap_words_fit input line (PyText.words line) acc [] Hin
                  (fun w H => H) Hacc (or_introl (Nat.le_0_l _))) as [Hout Hcur].
      destruct (fold_left wrap_word (PyText.words line) (acc, [])) as [out cur].
      cbn [fst snd] in Hout, Hcur.
      destruct cur as [ | c cur']; cbn [is_empty]; [ exact Hout | ].
      apply Forall_app. split; [ exact Hout | ]. constructor; [ exact Hcur | constructor ].
  - apply Forall_app. split; [ exact Hacc | ].
    constructor; [ | constructor ]. left. exact Hshort.
Qed.

Lemma reflow_all_fit input l acc :
  (forall line, In line l -> In line input) ->
  Forall (line_fits input) acc ->
  Forall (line_fits input) (fold_left reflow_line l acc).
Proof.
  revert acc. induction l as [ | x l IH]; intros acc Hl Hacc; cbn [fold_left];
    [ exact Hacc | ].
  apply IH.
  - intros line H. apply Hl. right. exact H.
  - apply reflow_line_fits; [ apply Hl; left; reflexivity | exact Hacc ].
Qed.

(** X17. [optimize_for_linkedin] joins, with newlines, a list of lines
    each of which has at most 100 characters, unless it is an input line
    that starts with "#" or a single word of an input line, which are
    never broken. *)
Theorem X17_reflowed_lines_fit (content : string) :
  let input := PyText.split PyText.newline content in
  let optimized_lines := fold_left reflow_line input [] in
  optimize_for_linkedin content = PyStr.join newline_str optimized_lines
  /\ Forall (line_fits input) optimized_lines.
Proof.
  cbv zeta. split; [ reflexivity | ].
  apply reflow_all_fit; [ auto | constructor ].
Qed.

Lemma words_single w :
  w <> "" ->
  Forall (fun c => PyStr.is_space c = false) (list_ascii_of_string w) ->
  PyText.words w = [w].
Proof.
  induction w as [ | c r IH]; intros Hne Hall; [ contradiction | ].
  cbn in Hall. inversion Hall as [ | ? ? Hc Hr]; subst.
  cbn [PyText.words]. rewrite Hc.
  destruct r as [ | c' r']; [ reflexivity | ].
  cbn in Hr. inversion Hr as [ | ? ? Hc' Hr']; subst. rewrite Hc'.
  rewrite IH; [ reflexivity | discriminate | exact Hr ].
Qed.

(** X18. An edge of the reflow: a line that is one word of more than 100
    characters, not starting with "#", is not broken, but an empty line is
    put in front of it. *)
Theorem X18_long_word_gets_empty_line (acc : list string) (w : string) :
  100 < String.length w ->
  Forall (fun c => PyStr.is_space c = false) (list_ascii_of_string w) ->
  PyText.startswith (PyStr.strip w) "#" = false ->
  reflow_line acc w = acc ++ [""; w].
Proof.
  intros Hlong Hword Hhash. unfold reflow_line.
  destruct (Nat.ltb_spec 100 (String.length w)) as [_ | Hle]; [ | lia ].
  rewrite Hhash. cbn [andb negb].
  rewrite words_single; [ | intros ->; cbn in Hlong; lia | exact Hword ].
  cbn [fold_left wrap_word app PyStr.join].
  destruct (Nat.ltb_spec 100 (String.length w)) as [_ | Hle]; [ | lia ].
  cbn [is_empty PyStr.join]. rewrite <- app_assoc. reflexivity.
Qed.

Lemma X18_long_word_gets_empty_line_witness :
  100 < String.length "https://www.example.com/a/very/long/path/that/goes/on/and/on/and/on/and/on/and/on/and/on/and/on/to/the/end"
  /\ Forall (fun c => PyStr.is_space c = false)
            (list_ascii_of_string "https://www.example.com/a/very/long/path/that/goes/on/and/on/and/on/and/on/and/on/and/on/and/on/to/the/end")
  /\ PyText.startswith (PyStr.strip "https://www.example.com/a/very/long/path/that/goes/on/and/on/and/on/and/on/and/on/and/on/and/on/to/the/end") "#" = false
  /\ optimize_for_linkedin "https://www.example.com/a/very/long/path/that/goes/on/and/on/and/on/and/on/and/on/and/on/and/on/to/the/end"
     = String PyText.newline "https://www.example.com/a/very/long/path/that/goes/on/and/on/and/on/and/on/and/on/and/on/and/on/to/the/end".
Proof.
  set (w := "https://www.example.com/a/very/long/path/that/goes/on/and/on/and/on/and/on/and/on/and/on/and/on/to/the/end").
  assert (H1 : 100 < String.length w) by (cbn; lia).
  assert (H2 : Forall (fun c => PyStr.is_space c = false) (list_ascii_of_string w))
    by (repeat constructor).
  assert (H3 : PyText.startswith (PyStr.strip w) "#" = false) by reflexivity.
  split; [ exact H1 | ]. split; [ exact H2 | ]. split; [ exact H3 | ].
  unfold optimize_for_linkedin.
  change (PyText.split PyText.newline w) with [w]. cbn [fold_left].
  rewrite (X18_long_word_gets_empty_line [] w H1 H2 H3). reflexivity.
Defined.

(** *** The image agent's summary of the post *)

Lemma take_length n s : String.length (PyText.take n s) = Nat.min n (String.length s).
Proof.
  revert s. induction n as [ | n IH]; intros s; [ reflexivity | ].
  destruct s as [ | c r]; cbn; [ reflexivity | rewrite IH; reflexivity ].
Qed.

Lemma take_prefix n s : String.prefix (PyText.take n s) s = true.
Proof.
  revert s. induction n as [ | n IH]; intros s; [ destruct s; reflexivity | ].
  destruct s as [ | c r]; cbn; [ reflexivity | ].
  destruct (ascii_dec c c); [ apply IH | contradiction ].
Qed.

Lemma length_app_string a b :
  String.length (a ++ b) = String.length a + String.length b.
Proof. induction a as [ | c a IH]; cbn; [ reflexivity | rewrite IH; reflexivity ]. Qed.

(** X19. The summary of a post for the image prompt is the post itself
    when it has at most 100 characters, and otherwise its first 100
    characters followed by "...": it never has more than 103 characters,
    and it has exactly 103 when the post is cut. *)
Theorem X19_image_summary_bound (post_content : string) :
  let summary := _summarize_content_for_image post_content in
  String.length summary <= 103
  /\ (String.length post_content <= 100 -> summary = post_content)
  /\ (100 < String.length post_content ->
      String.length summary = 103
      /\ summary = (PyText.take 100 post_content ++ "...")%string
      /\ String.prefix (PyText.take 100 post_content) post_content = true).
Proof.
  cbv zeta. unfold _summarize_content_for_image.
  destruct (Nat.ltb_spec 100 (String.length post_content)) as [Hlong | Hshort].
  - rewrite length_app_string, take_length. cbn [String.length].
    split; [ lia | ]. split; [ lia | ].
    intros _. split; [ lia | ]. split; [ reflexivity | apply take_prefix ].
  - split; [ lia | ]. split; [ reflexivity | lia ].
Qed.

(** *** The configuration *)

Lemma key_unset_false key :
  key_unset key = false <-> exists k, key = Some k /\ k <> "".
Proof.
  destruct key as [k | ]; cbn.
  - destruct (String.eqb_spec k "") as [-> | Hne]; cbn.
    + split; [ discriminate | intros (k' & [= <-] & H); contradiction ].
    + split; [ intros _; exists k; auto | reflexivity ].
  - split; [ discriminate | intros (k' & H & _); discriminate H ].
Qed.

(** X20. [validate_keys] returns [True] exactly when OPENAI_API_KEY and
    TAVILY_API_KEY are both set to a non-empty value; otherwise it raises
    a [ValueError] whose message names the missing keys, OPENAI_API_KEY
    first.  It never returns [False], and LANGCHAIN_API_KEY is not
    required. *)
Theorem X20_validate_keys (getenv : string -> option string) :
  let config := Config_init getenv in
  (validate_keys config = Ok true
   <-> (exists k, getenv "OPENAI_API_KEY" = Some k /\ k <> "")
       /\ (exists k, getenv "TAVILY_API_KEY" = Some k /\ k <> ""))
  /\ validate_keys config
     = (if key_unset (getenv "OPENAI_API_KEY")
        then if key_unset (getenv "TAVILY_API_KEY")
             then Raise (ValueError
                           "Missing required API keys: OPENAI_API_KEY, TAVILY_API_KEY")
             else Raise (ValueError "Missing required API keys: OPENAI_API_KEY")
        else if key_unset (getenv "TAVILY_API_KEY")
             then Raise (ValueError "Missing required API keys: TAVILY_API_KEY")
             else Ok true).
Proof.
  cbv zeta. unfold validate_keys, Config_init.
  cbn [_openai_api_key _tavily_api_key].
  rewrite <- !key_unset_false.
  destruct (key_unset (getenv "OPENAI_API_KEY"));
    destruct (key_unset (getenv "TAVILY_API_KEY")); cbn;
    (split; [ | reflexivity ]);
    split; try discriminate; try (intros [H1 H2]; discriminate); auto.
Qed.

(** *** Status messages *)

Ltac case_name x :=
  destruct (String.eqb_spec x "tone_analysis") as [-> | ?];
  [ | destruct (String.eqb_spec x "research") as [-> | ?];
      [ | destruct (String.eqb_spec x "content_creation") as [-> | ?];
          [ | destruct (String.eqb_spec x "image_generation") as [-> | ?] ] ] ].

Ltac case_label x :=
  destruct (String.eqb_spec x "waiting") as [-> | ?];
  [ | destruct (String.eqb_spec x "working") as [-> | ?];
      [ | destruct (String.eqb_spec x "completed") as [-> | ?];
          [ | destruct (String.eqb_spec x "error") as [-> | ?] ] ] ].

Ltac drop_eqb :=
  repeat match goal with
         | H : ?x <> ?y |- context [String.eqb ?x ?y] =>
             rewrite (proj2 (String.eqb_neq x y) H)
         end.

(** X21. [get_status_message] falls back to "Status unknown" exactly when
    the agent is not one of the four stage names or the status is not one
    of "waiting", "working", "completed", "error". *)
Theorem X21_status_message_fallback (agent status : string) :
  get_status_message agent status = "Status unknown"
  <-> ~ (In agent stage_names
         /\ In status ["waiting"; "working"; "completed"; "error"]).
Proof.
  unfold get_status_message.
  case_name agent; case_label status;
    cbn; drop_eqb; cbn; drop_eqb; cbn;
    (split; [ try discriminate; intros _ [Ha Hs]; cbn in Ha, Hs; intuition congruence
            | try reflexivity; intros H; exfalso; apply H; cbn; auto 10 ]).
Qed.

(** X22. Every entry that [get_workflow_status] returns has a message:
    [get_status_message] never answers "Status unknown" for a stage and
    the label the reporter gives it. *)
Theorem X22_reporter_labels_have_messages (st : store) :
  exists steps,
    get_workflow_status st = (Ok steps, st)
    /\ Forall (fun kv => get_status_message (fst kv) (snd kv) <> "Status unknown") steps.
Proof.
  destruct (reporter_closed_form st "tone_analysis") as (steps & Hrun & Hkeys & H1);
    [ cbn; auto | ].
  destruct (reporter_closed_form st "research") as (s2 & R2 & _ & H2); [ cbn; auto | ].
  destruct (reporter_closed_form st "content_creation") as (s3 & R3 & _ & H3);
    [ cbn; auto | ].
  destruct (reporter_closed_form st "image_generation") as (s4 & R4 & _ & H4);
    [ cbn; auto 6 | ].
  rewrite Hrun in R2, R3, R4.
  injection R2 as <-. injection R3 as <-. injection R4 as <-.
  exists steps. split; [ exact Hrun | ].
  destruct steps as [ | [k1 v1] [ | [k2 v2] [ | [k3 v3] [ | [k4 v4] [ | ]]]]];
    try discriminate Hkeys.
  injection Hkeys as -> -> -> ->.
  cbn in H1, H2, H3, H4.
  injection H1 as ->. injection H2 as ->. injection H3 as ->. injection H4 as ->.
  repeat constructor; cbn [fst snd];
    repeat match goal with
           | |- context [if ?b then _ else _] => destruct b
           end; discriminate.
Qed.

(** *** The progress shown by the application *)

Lemma reset_get step (statuses : list (string * string)) :
  Dict.has step statuses = true ->
  Dict.get step (reset_agent_statuses statuses) = Some "waiting".
Proof.
  unfold Dict.has, reset_agent_statuses.
  induction statuses as [ | [k v] l IH]; cbn; [ discriminate | ].
  destruct (String.eqb step k); [ reflexivity | exact IH ].
Qed.

Lemma update_status_other completed errs statuses step s :
  step <> s ->
  Dict.get step (update_agent_status completed errs statuses s)
  = Dict.get step statuses.
Proof.
  intros Hne. unfold update_agent_status.
  destruct (existsb _ completed); [ apply get_set_other, Hne | ].
  destruct (existsb _ errs); [ apply get_set_other, Hne | reflexivity ].
Qed.

Lemma update_status_same completed errs statuses step :
  Dict.get step (update_agent_status completed errs statuses step)
  = if existsb (String.eqb step) completed then Some "completed"
    else if existsb (fun error => PyStr.contains step (PyStr.lower error)) errs
    then Some "error"
    else Dict.get step statuses.
Proof.
  unfold update_agent_status.
  destruct (existsb _ completed); [ apply get_set_same | ].
  destruct (existsb _ errs); [ apply get_set_same | reflexivity ].
Qed.

(** X23. The progress update of the application, after its reset: a step
    is shown "completed" if it is in [completed_steps], whatever the error
    texts say; else "error" if some entry of [errors], lower-cased,
    contains its name; else "waiting".  Unlike [get_workflow_status], it
    never turns a completed step into "error". *)
Theorem X23_app_progress (workflow_result : WorkflowState)
    (agent_statuses : list (string * string)) (step : string) :
  In step stage_names ->
  Dict.has step agent_statuses = true ->
  has_keys workflow_result = true ->
  Dict.get step (update_agent_statuses workflow_result
                   (reset_agent_statuses agent_statuses))
  = Some (if existsb (String.eqb step) (completed_of workflow_result)
          then "completed"
          else if existsb (fun error => PyStr.contains step (PyStr.lower error))
                          (errors_of workflow_result)
          then "error"
          else "waiting").
Proof.
  intros Hstep Hhas Hkeys. unfold update_agent_statuses. rewrite Hkeys.
  cbn [fold_left].
  cbn in Hstep. destruct Hstep as [<- | [<- | [<- | [<- | []]]]];
    repeat first [ rewrite update_status_other by discriminate
                 | rewrite update_status_same ];
    rewrite (reset_get _ _ Hhas);
    destruct (existsb _ (completed_of workflow_result)); try reflexivity;
    destruct (existsb _ (errors_of workflow_result)); reflexivity.
Qed.

Lemma X23_app_progress_witness :
  In "research" stage_names
  /\ Dict.has "research" waiting_steps = true
  /\ has_keys (state (snd (run_workflow Examples.ascii_repr Examples.tone_down
                             Examples.sample Examples.subject "en" fresh))) = true
  /\ Dict.get "research"
       (update_agent_statuses
          (state (snd (run_workflow Examples.ascii_repr Examples.tone_down
                         Examples.sample Examples.subject "en" fresh)))
          (reset_agent_statuses waiting_steps))
     = Some "completed".
Proof.
  set (wr := state (snd (run_workflow Examples.ascii_repr Examples.tone_down
                           Examples.sample Examples.subject "en" fresh))).
  assert (H1 : In "research" stage_names) by (cbn; auto).
  assert (H2 : Dict.has "research" waiting_steps = true) by reflexivity.
  assert (H3 : has_keys wr = true) by reflexivity.
  split; [ exact H1 | ]. split; [ exact H2 | ]. split; [ exact H3 | ].
  rewrite (X23_app_progress wr waiting_steps "research" H1 H2 H3). reflexivity.
Defined.

(** *** The nodes on a state that lacks keys *)

Ltac run_any_node :=
  cbv [bind ret raise try_except get_state put_state modify record_call
       setdefault setdefault_errors setdefault_completed_steps
       setdefault_current_step setdefault_status getitem dict_getitem
       append_completed_step append_error append_error_of lift_outcome
       call_tone call_research call_content call_image]; cbn.

(** X24. No stage node raises, on any state, even the empty dictionary:
    the guards create the two lists, and whatever goes wrong inside [try]
    is recorded.  When the key the node reads its input from is missing,
    no agent is called, [completed_steps] is unchanged and [errors] gains
    "<Stage label> failed: <repr of the key>". *)
Theorem X24_nodes_never_raise repr self (stg : stage) (st : store) :
  exists st',
    stage_node repr self stg st = (Ok tt, st')
    /\ (input_of stg (state st) = None ->
        calls st' = calls st
        /\ completed_of (state st') = completed_of (state st)
        /\ errors_of (state st')
           = errors_of (state st)
             ++ [(stage_label stg ++ " failed: " ++ repr (PStr (input_key stg)))%string]).
Proof.
  destruct st as [[ts tp lang ta rd cr ir cur cs es stt] cl hist].
  destruct stg; cbn [stage_node input_of input_key stage_label state];
    [ unfold analyze_tone; destruct ts as [ts | ], cur, stt
    | unfold research_topic; destruct tp as [tp | ]
    | unfold create_content; destruct tp as [tp | ]
    | unfold generate_image; destruct tp as [tp | ] ];
    destruct es, cs; run_any_node;
    try match goal with
        | |- context [match ?r with Returned _ => _ | Raised _ => _ end] =>
            destruct r as [d | e]; cbn;
            [ unfold Dict.has; destruct (Dict.get "error" d); cbn | ]
        end;
    (eexists; split; [ reflexivity | ]);
    first [ discriminate | intros _; repeat split; reflexivity ].
Qed.

Lemma X24_nodes_never_raise_witness :
  input_of Research (state fresh) = None
  /\ exists st',
       research_topic Examples.ascii_repr Examples.all_ok fresh = (Ok tt, st')
       /\ calls st' = []
       /\ errors (state st') = Some ["Research failed: 'topic'"].
Proof.
  assert (H : input_of Research (state fresh) = None) by reflexivity.
  split; [ exact H | ].
  destruct (X24_nodes_never_raise Examples.ascii_repr Examples.all_ok Research fresh)
    as (st' & Hrun & Hmiss).
  exists st'. split; [ exact Hrun | ].
  vm_compute in Hrun. injection Hrun as <-. split; reflexivity.
Defined.
